(** * COVID-19 dashboard (app.py): data loading and the filter / aggregation pipeline

    A shallow embedding of the Streamlit script [app.py].  A pandas
    [DataFrame] is a list of rows in index order; a missing cell (NaN /
    None) is [None]; Python exceptions are values of an error monad; the
    script's calls to Streamlit are the events of an output trace.

    Library code the script calls but does not contain is kept apart from
    the script's own control flow: the HTTP client, the CSV parser and the
    date conversion are the fields of an environment record [Env], and the
    sorting algorithm behind [sort_values] is a [SortKind], a function known
    only to return an ordered rearrangement of its input (pandas sorts with
    [kind="quicksort"] unless told otherwise, which promises nothing about
    rows with equal keys). *)

From Stdlib Require Import List String Ascii ZArith QArith Qround Bool Lia Lqa.
From Stdlib Require Import Permutation Sorted DecimalString.
Import ListNotations.

Local Open Scope Z_scope.
Local Open Scope string_scope.
Local Open Scope list_scope.

(** ** Exceptions *)

(** A Python exception: its class and the text [str(e)] gives. *)
Record exn : Type := mk_exn { exc_class : string; exc_str : string }.

Inductive result (A : Type) : Type :=
| Ok (a : A)
| Raise (e : exn).
Arguments Ok {A} a.
Arguments Raise {A} e.

Definition bind {A B : Type} (m : result A) (k : A -> result B) : result B :=
  match m with
  | Ok a => k a
  | Raise e => Raise e
  end.

Notation "x <- m ;; k" := (bind m (fun x => k))
  (at level 61, m at next level, right associativity).
Notation "m ;;; k" := (bind m (fun _ => k))
  (at level 61, right associativity).

(** ** Data model *)

(** [pandas.Timestamp]: nanoseconds since 1970-01-01T00:00. *)
Definition Timestamp : Type := Z.

(** [datetime.date], as its proleptic Gregorian ordinal ([date.toordinal]). *)
Definition CalDate : Type := Z.

Definition ns_per_day : Z := 86400000000000.
Definition epoch_ordinal : Z := 719163.

(** [Series.dt.date]: the calendar day a timestamp falls on. *)
Definition dt_date (t : Timestamp) : CalDate := epoch_ordinal + t / ns_per_day.

(** One row of the data set, with the columns the script reads.  The
    [date] column holds timestamps after [load_data]; every numeric cell
    holds the exact value of a finite float or is missing. *)
Record Row : Type := mk_row {
  location : option string;
  date : Timestamp;
  total_cases : option Q;
  total_deaths : option Q;
  total_deaths_per_million : option Q;
  people_fully_vaccinated_per_hundred : option Q
}.

Definition DataFrame : Type := list Row.

(** A numeric column, by name. *)
Definition Metric : Type := Row -> option Q.

(** [pd.notna] / the complement of the mask [dropna] uses. *)
Definition notna {A : Type} (v : option A) : bool :=
  match v with Some _ => true | None => false end.

(** [df["location"] == name]: a missing cell compares unequal. *)
Definition loc_eq (name : string) (r : Row) : bool :=
  match location r with
  | Some l => String.eqb l name
  | None => false
  end.

(** [df["location"] != name]: the elementwise negation, so a missing cell
    compares as different. *)
Definition loc_ne (name : string) (r : Row) : bool := negb (loc_eq name r).

(** ** Sidebar values *)

(** What [st.sidebar.date_input] hands back: a bare date, or a tuple of
    dates. *)
Inductive DateInput : Type :=
| one_date (d : CalDate)
| date_tuple (ds : list CalDate).

Definition ValueError (msg : string) : exn := mk_exn "ValueError" msg.

(** Line 54:
    [start_date, end_date = date_range if isinstance(date_range, tuple)
                            else (date_range, date_range)].
    Unpacking a tuple into two names raises [ValueError] unless the tuple
    has exactly two items. *)
Definition unpack_date_range (date_range : DateInput)
  : result (CalDate * CalDate) :=
  match date_range with
  | date_tuple [s; e] => Ok (s, e)
  | date_tuple [] =>
      Raise (ValueError "not enough values to unpack (expected 2, got 0)")
  | date_tuple [_] =>
      Raise (ValueError "not enough values to unpack (expected 2, got 1)")
  | date_tuple (_ :: _ :: _ :: _) =>
      Raise (ValueError "too many values to unpack (expected 2)")
  | one_date d => Ok (d, d)
  end.

(** ** The filtered view (lines 56-60) *)

Definition filtered_df (df : DataFrame) (selected_country : string)
    (start_date end_date : CalDate) : DataFrame :=
  filter (fun r =>
            loc_eq selected_country r
            && (start_date <=? dt_date (date r))%Z
            && (dt_date (date r) <=? end_date)%Z) df.

(** Lines 54-60 together: the view the script works on for given sidebar
    values. *)
Definition filtered_view (df : DataFrame) (selected_country : string)
    (date_range : DateInput) : result DataFrame :=
  range <- unpack_date_range date_range ;;
  Ok (filtered_df df selected_country (fst range) (snd range)).

(** ** Sorting

    [DataFrame.sort_values] hands the key column to numpy's [argsort].  The
    script never passes [kind], so the algorithm is pandas' default
    ("quicksort").  A [SortKind] stands for the algorithm: it is given the
    order on keys and a list, and [lawful] is all that is known of it. *)

Definition SortKind : Type :=
  forall A : Type, (A -> A -> bool) -> list A -> list A.

Definition total_order {A : Type} (leb : A -> A -> bool) : Prop :=
  forall a b, leb a b = true \/ leb b a = true.

Definition transitive_order {A : Type} (leb : A -> A -> bool) : Prop :=
  forall a b c, leb a b = true -> leb b c = true -> leb a c = true.

Definition lawful (K : SortKind) : Prop :=
  forall (A : Type) (leb : A -> A -> bool),
    total_order leb -> transitive_order leb ->
    forall l : list A,
      Permutation l (K A leb l)
      /\ StronglySorted (fun a b => leb a b = true) (K A leb l).

(** Two algorithms, for running the model.  [insertion_sort] leaves rows
    with equal keys in the order it met them, as the "stable" and
    "mergesort" kinds do. *)
Fixpoint insert_sorted {A : Type} (leb : A -> A -> bool) (a : A) (l : list A)
  : list A :=
  match l with
  | [] => [a]
  | b :: t => if leb a b then a :: b :: t else b :: insert_sorted leb a t
  end.

Definition insertion_sort : SortKind :=
  fun A leb l => fold_right (insert_sorted leb) [] l.

(** [backward_sort] puts a new key behind the keys equal to it.  It is a
    second algorithm that meets [lawful], to compare algorithms with; it is
    not the one pandas runs. *)
Fixpoint insert_behind {A : Type} (leb : A -> A -> bool) (a : A) (l : list A)
  : list A :=
  match l with
  | [] => [a]
  | b :: t => if leb b a then b :: insert_behind leb a t else a :: b :: t
  end.

Definition backward_sort : SortKind :=
  fun A leb l => fold_right (insert_behind leb) [] l.

(** A sorting algorithm is stable when it agrees with [insertion_sort] on
    every total preorder. *)
Definition stable (K : SortKind) : Prop :=
  forall (A : Type) (leb : A -> A -> bool),
    total_order leb -> transitive_order leb ->
    forall l : list A, K A leb l = insertion_sort A leb l.

(** [df.sort_values("date")]: ascending on the timestamp. *)
Definition date_leb (a b : Timestamp * Row) : bool := (fst a <=? fst b)%Z.

Definition sort_values_date (K : SortKind) (df : DataFrame) : DataFrame :=
  map snd (K (Timestamp * Row)%type date_leb (map (fun r => (date r, r)) df)).

(** The order of a frame sorted by date. *)
Definition by_date (a b : Row) : Prop := (date a <= date b)%Z.

(** The rows of [df] whose cell in column [m] is present, each with its
    value. *)
Definition keyed (m : Metric) (df : DataFrame) : list (Q * Row) :=
  flat_map (fun r => match m r with Some q => [(q, r)] | None => [] end) df.

Definition Q_leb (a b : Q * Row) : bool := Qle_bool (fst a) (fst b).

(** [df.sort_values(m, ascending=False)], as pandas' [nargsort] does it:
    the present keys are reversed, sorted ascending and reversed again; the
    rows with a missing key follow ([na_position="last"]). *)
Definition sort_values_desc (K : SortKind) (m : Metric) (df : DataFrame)
  : DataFrame :=
  map snd (rev (K (Q * Row)%type Q_leb (rev (keyed m df))))
  ++ filter (fun r => negb (notna (m r))) df.

(** ** Frame operations *)

(** [df.dropna(subset=[m])]. *)
Definition dropna_subset (m : Metric) (df : DataFrame) : DataFrame :=
  filter (fun r => notna (m r)) df.

(** [df.head(n)]. *)
Definition head (n : nat) {A : Type} (df : list A) : list A := firstn n df.

(** [df.iloc[-1]]. *)
Definition IndexError (msg : string) : exn := mk_exn "IndexError" msg.

Definition iloc_last (df : DataFrame) : result Row :=
  match rev df with
  | r :: _ => Ok r
  | [] => Raise (IndexError "single positional indexer is out-of-bounds")
  end.

(** ** Latest row per location (line 89) *)

(** The group keys of [groupby("location")]: the distinct locations that
    are present ([dropna=True]), in ascending order ([sort=True]). *)
Definition group_keys (df : DataFrame) : list string :=
  insertion_sort string String.leb
    (nodup string_dec
       (flat_map (fun r => match location r with
                           | Some l => [l]
                           | None => []
                           end) df)).

Definition get_group (name : string) (df : DataFrame) : DataFrame :=
  filter (loc_eq name) df.

(** [GroupBy.last] on one column: the last value that is not missing. *)
Fixpoint last_notna {A : Type} (col : list (option A)) : option A :=
  match col with
  | [] => None
  | v :: rest =>
      match last_notna rest with
      | Some x => Some x
      | None => v
      end
  end.

(** The row [last()] builds for the group [first :: rest] of location
    [name]: column by column. *)
Definition agg_last (name : string) (first : Row) (rest : DataFrame) : Row :=
  let g := first :: rest in
  {| location := Some name;
     date := last (map date rest) (date first);
     total_cases := last_notna (map total_cases g);
     total_deaths := last_notna (map total_deaths g);
     total_deaths_per_million := last_notna (map total_deaths_per_million g);
     people_fully_vaccinated_per_hundred :=
       last_notna (map people_fully_vaccinated_per_hundred g) |}.

(** The rows [last()] yields for one group key: one, built from the rows
    of that location in the order of the sorted frame. *)
Definition last_of_group (sorted : DataFrame) (name : string) : DataFrame :=
  match get_group name sorted with
  | [] => []
  | first :: rest => [agg_last name first rest]
  end.

(** [df.sort_values("date").groupby("location").last().reset_index()]. *)
Definition latest_all (K : SortKind) (df : DataFrame) : DataFrame :=
  flat_map (last_of_group (sort_values_date K df)) (group_keys df).

(** ** Top ten (lines 92-93) *)

Definition top10 (K : SortKind) (latest_all : DataFrame) : DataFrame :=
  let top10 := dropna_subset total_deaths_per_million latest_all in
  head 10
    (sort_values_desc K total_deaths_per_million
       (filter (loc_ne "World") top10)).

(** The same pipeline with its three literals (the column, the count and
    the excluded location) as arguments. *)
Definition excluded (exclude : list string) (r : Row) : bool :=
  existsb (fun name => loc_eq name r) exclude.

Definition topNByMetric (K : SortKind) (m : Metric) (n : nat)
    (exclude : list string) (snapshot : DataFrame) : DataFrame :=
  head n
    (sort_values_desc K m
       (filter (fun r => negb (excluded exclude r))
          (dropna_subset m snapshot))).

(** ** Scatter input (lines 104-108) *)

Definition ScatterRow : Type := (option Q * option Q * option string)%type.

Definition scatter_columns (r : Row) : ScatterRow :=
  (people_fully_vaccinated_per_hundred r, total_deaths_per_million r,
   location r).

(** [DataFrame.dropna()]: a row goes when any of its cells is missing. *)
Definition dropna (rows : list ScatterRow) : list ScatterRow :=
  filter (fun t => match t with
                   | (x, y, l) => notna x && notna y && notna l
                   end) rows.

Definition scatter_loc_ne (name : string) (t : ScatterRow) : bool :=
  match t with
  | (_, _, Some l) => negb (String.eqb l name)
  | (_, _, None) => true
  end.

Definition scatter_df (latest_all : DataFrame) : list ScatterRow :=
  let scatter_df := dropna (map scatter_columns latest_all) in
  filter (scatter_loc_ne "World") scatter_df.

(** The same with the two columns and the excluded locations as
    arguments. *)
Definition pairedMetrics (mx my : Metric) (exclude : list string)
    (snapshot : DataFrame) : list ScatterRow :=
  filter (fun t => forallb (fun name => scatter_loc_ne name t) exclude)
    (dropna (map (fun r => (mx r, my r, location r)) snapshot)).

(** ** KPI text (lines 75-77) *)

(** [int(x)] of a float: the fraction is cut off, towards zero. *)
Definition py_int (q : Q) : Z := Z.quot (Qnum q) (Z.pos (Qden q)).

(** The decimal digits of a natural number. *)
Definition digits (n : N) : string := NilZero.string_of_uint (N.to_uint n).

(** The [","] option of the format mini-language, on the digits from the
    least significant one: a comma after every third digit that has
    another digit behind it. *)
Fixpoint group3 (rev_digits : list ascii) : list ascii :=
  match rev_digits with
  | a :: b :: c :: ((_ :: _) as more) =>
      a :: b :: c :: ","%char :: group3 more
  | _ => rev_digits
  end.

Definition minus_if (negative : bool) : string :=
  if negative then "-" else "".

(** [f"{z:,}"] for an [int]. *)
Definition format_thousands (z : Z) : string :=
  minus_if (z <? 0)%Z
  ++ string_of_list_ascii
       (rev (group3 (rev (list_ascii_of_string (digits (Z.abs_N z)))))).

(** The integer nearest to [q]; of two equally near ones, the even one. *)
Definition round_half_even (q : Q) : Z :=
  let f := Qfloor q in
  match Qcompare (q - inject_Z f) (1 # 2) with
  | Lt => f
  | Gt => (f + 1)%Z
  | Eq => if Z.even f then f else (f + 1)%Z
  end.

(** [f"{q:.1f}"] for a finite float of exact value [q]: the float's
    conversion to decimal is correctly rounded, so the text shows the
    number of tenths nearest to [q], with the sign of [q]. *)
Definition tenths (q : Q) : Z := round_half_even (q * inject_Z 10).

Definition format_1f (q : Q) : string :=
  let n := Z.abs_N (tenths q) in
  minus_if (Qnum q <? 0)%Z
  ++ digits (n / 10) ++ "." ++ digits (n mod 10).

(** [str(z)] for an [int]: the sign and the digits. *)
Definition plain_int (z : Z) : string :=
  minus_if (z <? 0)%Z ++ digits (Z.abs_N z).

Definition chars (s : string) : list ascii := list_ascii_of_string s.

Definition is_comma (c : ascii) : bool := Ascii.eqb c ","%char.

Definition is_digit (c : ascii) : bool :=
  Nat.leb 48 (nat_of_ascii c) && Nat.leb (nat_of_ascii c) 57.

Definition without_commas (s : string) : list ascii :=
  filter (fun c => negb (is_comma c)) (chars s).

(** A text read from its end is grouped by thousands when every fourth
    character is a comma, the others are digits, and a digit comes last. *)
Definition thousands_grouped (rev_text : list ascii) : Prop :=
  (List.length rev_text mod 4 <> 0)%nat
  /\ forall i, (i < List.length rev_text)%nat ->
       if Nat.eqb (i mod 4) 3
       then nth i rev_text "0"%char = ","%char
       else is_digit (nth i rev_text "0"%char) = true.

Inductive Kind : Type := integer | percentage.

(** The text of a KPI: [f"{int(v):,}" if pd.notna(v) else "N/A"] for the
    two counts, [f"{v:.1f}" if pd.notna(v) else "N/A"] for the rate. *)
Definition formatMetric (value : option Q) (kind : Kind) : string :=
  match value, kind with
  | None, _ => "N/A"
  | Some q, integer => format_thousands (py_int q)
  | Some q, percentage => format_1f q
  end.

(** ** The script's output *)

Inductive Output : Type :=
| st_title (body : string)
| st_markdown (body : string)
| st_warning (body : string)
| st_metric (label value : string)
| area_chart (points : list (Timestamp * option Q))
| bar_chart (bars : list (option string * option Q))
| scatter_chart (points : list ScatterRow)
| st_subheader (body : string)
| st_dataframe (rows : DataFrame).

(** How a run of the script ends: at its last line, at [st.stop()], or
    with an exception nobody caught. *)
Inductive Outcome : Type :=
| Finished
| Stopped
| Failed (e : exn).

Definition no_data_message : string :=
  "No data available for the selected filters. Try a different date range.".

(** [DataFrame.empty]. *)
Definition empty (df : DataFrame) : bool :=
  match df with [] => true | _ :: _ => false end.

(** Lines 54-121, for the loaded frame and the two sidebar values.  The
    calls that display something are the events of the trace; that they
    and the formatting of lines 75-77 go through is taken for granted
    here. *)
Definition dashboard (K : SortKind) (df : DataFrame)
    (selected_country : string) (date_range : DateInput)
  : list Output * Outcome :=
  match unpack_date_range date_range with
  | Raise e => ([], Failed e)
  | Ok (start_date, end_date) =>
      let filtered_df := filtered_df df selected_country start_date end_date in
      if empty filtered_df then ([st_warning no_data_message], Stopped)
      else
        match iloc_last (sort_values_date K filtered_df) with
        | Raise e => ([], Failed e)
        | Ok latest =>
            let latest_all := latest_all K df in
            ([ st_metric "Total Cases"
                 (formatMetric (total_cases latest) integer);
               st_metric "Total Deaths"
                 (formatMetric (total_deaths latest) integer);
               st_metric "Fully Vaccinated (%)"
                 (formatMetric (people_fully_vaccinated_per_hundred latest)
                    percentage);
               area_chart (map (fun r => (date r, total_cases r)) filtered_df);
               bar_chart
                 (map (fun r => (location r, total_deaths_per_million r))
                    (top10 K latest_all));
               scatter_chart (scatter_df latest_all);
               st_subheader "Filtered Data Preview";
               st_dataframe (head 50 filtered_df) ],
             Finished)
        end
  end.

(** The events that show a KPI, a chart or the preview. *)
Definition shows_data (o : Output) : bool :=
  match o with
  | st_metric _ _ | area_chart _ | bar_chart _ | scatter_chart _
  | st_dataframe _ => true
  | _ => false
  end.

(** ** Loading (lines 14-29) *)

(** The libraries [load_data] calls: [requests.get], with
    [Response.raise_for_status] and [Response.text]; [pd.read_csv]; and
    line 25, which replaces the [date] column by [pd.to_datetime] of
    it. *)
Record Env : Type := mk_env {
  Response : Type;
  RawFrame : Type;
  requests_get : string -> Z -> result Response;
  raise_for_status : Response -> result unit;
  text : Response -> string;
  read_csv : string -> result RawFrame;
  date_to_datetime : RawFrame -> result DataFrame
}.

Definition urls : list string :=
  [ "https://covid.ourworldindata.org/data/owid-covid-data.csv";
    "https://raw.githubusercontent.com/owid/covid-19-data/master/public/data/owid-covid-data.csv" ].

(** The body of the [try] (lines 22-26), for one candidate. *)
Definition fetch (env : Env) (url : string) : result DataFrame :=
  r <- requests_get env url 60 ;;
  raise_for_status env r ;;;
  df <- read_csv env (text env r) ;;
  date_to_datetime env df.

Definition RuntimeError (msg : string) : exn := mk_exn "RuntimeError" msg.

(** [str(last_error)]. *)
Definition str_of (last_error : option exn) : string :=
  match last_error with
  | Some e => exc_str e
  | None => "None"
  end.

(** The loop of lines 20-28 and the [raise] of line 29. *)
Fixpoint try_each (env : Env) (candidates : list string)
    (last_error : option exn) : result DataFrame :=
  match candidates with
  | [] =>
      Raise (RuntimeError
               ("Failed to download dataset. Last error: "
                ++ str_of last_error))
  | url :: rest =>
      match fetch env url with
      | Ok df => Ok df
      | Raise e => try_each env rest (Some e)
      end
  end.

Definition load_data (env : Env) : result DataFrame :=
  try_each env urls None.

(** The whole script: lines 7-11, the load of line 31 and the rest, for
    the values the two sidebar controls returned; the controls of lines
    34-51 themselves are not part of it. *)
Definition app (K : SortKind) (env : Env) (selected_country : string)
    (date_range : DateInput) : list Output * Outcome :=
  let intro :=
    [ st_title "COVID-19 Data Visualization Dashboard";
      st_markdown "
This dashboard explores global COVID-19 trends, vaccination progress,
and their relationship with deaths across countries.
" ] in
  match load_data env with
  | Raise e => (intro, Failed e)
  | Ok df =>
      let run := dashboard K df selected_country date_range in
      (intro ++ fst run, snd run)
  end.

(** ** Orders on rows *)

(** [a] may stand before [b] in a frame ordered by decreasing [m]: both
    cells are present and the first is not the smaller. *)
Definition metric_ge (m : Metric) (a b : Row) : Prop :=
  match m a, m b with
  | Some x, Some y => (y <= x)%Q
  | _, _ => False
  end.

(** The rows whose cell in column [m] equals [v]. *)
Definition same_value (m : Metric) (v : Q) (r : Row) : bool :=
  match m r with
  | Some x => Qeq_bool x v
  | None => false
  end.

(** [l1] is [l2] with some elements left out. *)
Inductive subseq {A : Type} : list A -> list A -> Prop :=
| subseq_nil : subseq [] []
| subseq_skip (a : A) (l1 l2 : list A) : subseq l1 l2 -> subseq l1 (a :: l2)
| subseq_take (a : A) (l1 l2 : list A) :
    subseq l1 l2 -> subseq (a :: l1) (a :: l2).

(** The rows [topNByMetric] ranks: those left by [dropna] and the
    exclusion. *)
Definition ranked (m : Metric) (exclude : list string) (snapshot : DataFrame)
  : DataFrame :=
  filter (fun r => negb (excluded exclude r)) (dropna_subset m snapshot).

(** A row with no missing cell. *)
Definition complete (r : Row) : bool :=
  notna (total_cases r) && notna (total_deaths r)
  && notna (total_deaths_per_million r)
  && notna (people_fully_vaccinated_per_hundred r).

(** ** Sample data *)

Definition day (n : Z) : Timestamp := n * ns_per_day.

Definition sample_row (name : string) (n : Z) (cases deaths_pm vax : option Q)
  : Row :=
  {| location := Some name;
     date := day n;
     total_cases := cases;
     total_deaths := None;
     total_deaths_per_million := deaths_pm;
     people_fully_vaccinated_per_hundred := vax |}.

(** Two days of one country; the later row reports no death rate. *)
Definition two_days : DataFrame :=
  [ sample_row "Atlantis" 1 (Some (10 # 1)) (Some (5 # 1)) (Some (8725 # 100));
    sample_row "Atlantis" 2 (Some (12 # 1)) None (Some (8735 # 100)) ].

(** Three countries and the aggregate, two of them with the same rate. *)
Definition four_places : DataFrame :=
  [ sample_row "Atlantis" 1 (Some (10 # 1)) (Some (5 # 1)) (Some (50 # 1));
    sample_row "Borduria" 1 (Some (20 # 1)) (Some (5 # 1)) None;
    sample_row "Cascadia" 1 None (Some (7 # 1)) (Some (60 # 1));
    sample_row "World" 1 (Some (30 # 1)) (Some (9 # 1)) (Some (55 # 1)) ].

Definition ConnectionError (msg : string) : exn :=
  mk_exn "ConnectionError" msg.

(** A world whose first server is down and whose mirror serves
    [two_days]. *)
Definition mirror_only : Env :=
  {| Response := string;
     RawFrame := DataFrame;
     requests_get := fun url _ =>
       if String.eqb url (nth 0 urls "")
       then Raise (ConnectionError "primary unreachable")
       else Ok "csv";
     raise_for_status := fun _ => Ok tt;
     text := fun r => r;
     read_csv := fun _ => Ok two_days;
     date_to_datetime := fun df => Ok df |}.

(** A world with no network: each request fails, naming its address. *)
Definition offline : Env :=
  {| Response := string;
     RawFrame := DataFrame;
     requests_get := fun url _ => Raise (ConnectionError url);
     raise_for_status := fun _ => Ok tt;
     text := fun r => r;
     read_csv := fun _ => Ok [];
     date_to_datetime := fun df => Ok df |}.

(** ** Sidebar choices (lines 34-35 and 43-44) *)

(** [df["location"].dropna()]: the locations that are present, row by
    row. *)
Definition location_dropna (df : DataFrame) : list string :=
  flat_map (fun r => match location r with
                     | Some l => [l]
                     | None => []
                     end) df.

(** [Series.unique()]: each value once, where it first appears. *)
Fixpoint unique (values : list string) : list string :=
  match values with
  | [] => []
  | x :: rest => x :: filter (fun y => negb (String.eqb y x)) (unique rest)
  end.

(** Line 34: [sorted(df["location"].dropna().unique())].  Python's
    [sorted] is a stable sort, and strings compare by code point. *)
Definition countries (df : DataFrame) : list string :=
  insertion_sort string String.leb (unique (location_dropna df)).

(** [x in l] and [l.index(x)] for a list of strings. *)
Definition contains (x : string) (l : list string) : bool :=
  existsb (fun y => String.eqb y x) l.

Fixpoint index (x : string) (l : list string) : result nat :=
  match l with
  | [] => Raise (ValueError ("'" ++ x ++ "' is not in list"))
  | y :: rest =>
      if String.eqb y x then Ok 0%nat
      else i <- index x rest ;; Ok (S i)
  end.

(** Line 35:
    [countries.index("India") if "India" in countries else 0]. *)
Definition default_index (countries : list string) : result nat :=
  if contains "India" countries then index "India" countries else Ok 0%nat.

(** [df["date"].min()] and [df["date"].max()]; on a frame without rows
    they give [NaT], here [None]. *)
Definition date_min (df : DataFrame) : option Timestamp :=
  match map date df with
  | [] => None
  | t :: ts => Some (fold_right Z.min t ts)
  end.

Definition date_max (df : DataFrame) : option Timestamp :=
  match map date df with
  | [] => None
  | t :: ts => Some (fold_right Z.max t ts)
  end.

(** Lines 43-44: [.date()] of the two. *)
Definition min_date (df : DataFrame) : option CalDate :=
  option_map dt_date (date_min df).

Definition max_date (df : DataFrame) : option CalDate :=
  option_map dt_date (date_max df).

(** Line 66: [filtered_df.sort_values("date").iloc[-1]]. *)
Definition latest (K : SortKind) (filtered_df : DataFrame) : result Row :=
  iloc_last (sort_values_date K filtered_df).

(** Lines 54-66 in one piece: the range, the view, the guard of line 62
    and the latest row.  [Ok None] is the stop of line 64. *)
Definition latest_of_view (K : SortKind) (df : DataFrame)
    (selected_country : string) (date_range : DateInput)
  : result (option Row) :=
  range <- unpack_date_range date_range ;;
  let filtered_df :=
    filtered_df df selected_country (fst range) (snd range) in
  if empty filtered_df then Ok None
  else row <- latest K filtered_df ;; Ok (Some row).

(** No two different rows of the frame share location and date. *)
Definition one_row_per_day (df : DataFrame) : Prop :=
  forall a b, In a df -> In b df ->
              location a = location b -> date a = date b -> a = b.

(** Two countries over two days, out of order, and a row without
    location. *)
Definition mixed_days : DataFrame :=
  [ sample_row "India" 2 (Some (12 # 1)) None (Some (40 # 1));
    sample_row "Atlantis" 1 (Some (3 # 1)) (Some (2 # 1)) None;
    {| location := None; date := day 5; total_cases := None;
       total_deaths := None; total_deaths_per_million := None;
       people_fully_vaccinated_per_hundred := None |};
    sample_row "India" 1 (Some (10 # 1)) (Some (1 # 1)) None ].

(** * Properties *)

(** ** The filtered view *)

Lemma loc_eq_true (name : string) (r : Row) :
  loc_eq name r = true <-> location r = Some name.
Proof.
  unfold loc_eq. destruct (location r) as [l|].
  - rewrite String.eqb_eq. split; congruence.
  - split; discriminate.
Qed.

Lemma loc_ne_true (name : string) (r : Row) :
  loc_ne name r = true <-> location r <> Some name.
Proof.
  unfold loc_ne. rewrite negb_true_iff, <- not_true_iff_false, loc_eq_true.
  reflexivity.
Qed.

(** Membership in the filtered view, shared by the statements below. *)
Lemma filtered_df_In (df : DataFrame) (c : string) (s e : CalDate) (r : Row) :
  In r (filtered_df df c s e)
  <-> In r df /\ location r = Some c /\ (s <= dt_date (date r) <= e)%Z.
Proof.
  unfold filtered_df. rewrite filter_In, !andb_true_iff, loc_eq_true.
  rewrite !Z.leb_le. tauto.
Qed.

(** C1.  A row is in the filtered view exactly when it is a row of the
    data set, its location is the selected country and its calendar date
    lies between the start and the end date, both included. *)
Theorem filter_correct (df : DataFrame) (c : string) (s e : CalDate) (r : Row) :
  In r (filtered_df df c s e)
  <-> In r df /\ location r = Some c /\ (s <= dt_date (date r) <= e)%Z.
Proof. exact (filtered_df_In df c s e r). Qed.

(** The view keeps the rows in the order of the data set, and each one as
    often as the data set has it. *)
Lemma filtered_df_cons (df : DataFrame) (c : string) (s e : CalDate) (r : Row) :
  filtered_df (r :: df) c s e
  = if loc_eq c r && (s <=? dt_date (date r))%Z && (dt_date (date r) <=? e)%Z
    then r :: filtered_df df c s e
    else filtered_df df c s e.
Proof. reflexivity. Qed.

(** The else-branch of line 54: a value of the date control that is not a
    tuple is used as the range from [d] to [d], the view is then made of
    the selected country's rows dated [d], and the script runs as it does
    for the pair [(d, d)]. *)
Theorem single_date_is_degenerate_range
    (K : SortKind) (df : DataFrame) (c : string) (d : CalDate) :
  unpack_date_range (one_date d) = Ok (d, d)
  /\ filtered_view df c (one_date d) = Ok (filtered_df df c d d)
  /\ (forall r, In r (filtered_df df c d d)
                <-> In r df /\ location r = Some c /\ dt_date (date r) = d)
  /\ dashboard K df c (one_date d) = dashboard K df c (date_tuple [d; d]).
Proof.
  repeat split; try reflexivity.
  - apply filtered_df_In in H. tauto.
  - apply filtered_df_In in H. tauto.
  - apply filtered_df_In in H. lia.
  - intros (Hin & Hloc & Hd). apply filtered_df_In. repeat split; auto; lia.
Qed.

(** A tuple is unpacked as it is, so one that holds a single date makes
    line 54 raise. *)
Lemma one_item_tuple_raises (K : SortKind) (df : DataFrame) (c : string)
    (d : CalDate) :
  dashboard K df c (date_tuple [d])
  = ([], Failed (ValueError "not enough values to unpack (expected 2, got 1)")).
Proof. reflexivity. Qed.

(** C10.  The date control of lines 46-51 is given a pair as its value, so
    what it hands back is a tuple, and a single chosen date arrives as the
    tuple [(d,)].  Line 54 then does not make the range [(d, d)] of it, as
    its comment intends: the unpacking raises [ValueError], no view is
    computed and nothing is shown, where the pair [(d, d)] gives a run
    that ends otherwise. *)
Theorem single_date_tuple_raises (K : SortKind) (df : DataFrame) (c : string)
    (d : CalDate) :
  unpack_date_range (date_tuple [d])
  = Raise (ValueError "not enough values to unpack (expected 2, got 1)")
  /\ filtered_view df c (date_tuple [d])
     = Raise (ValueError "not enough values to unpack (expected 2, got 1)")
  /\ dashboard K df c (date_tuple [d])
     = ([], Failed (ValueError
                      "not enough values to unpack (expected 2, got 1)"))
  /\ unpack_date_range (date_tuple [d; d]) = Ok (d, d)
  /\ dashboard K df c (date_tuple [d]) <> dashboard K df c (date_tuple [d; d]).
Proof.
  repeat split.
  unfold dashboard. simpl.
  destruct (empty (filtered_df df c d d)); [discriminate|].
  unfold iloc_last. destruct (rev _); discriminate.
Qed.

(** ** Loading *)

Lemma bind_ok {A B : Type} (m : result A) (k : A -> result B) (b : B) :
  bind m k = Ok b <-> exists a, m = Ok a /\ k a = Ok b.
Proof.
  destruct m as [a|e]; simpl; split.
  - intros H. now exists a.
  - now intros (a' & [= <-] & H).
  - discriminate.
  - now intros (a' & [=] & _).
Qed.

Lemma bind_raise {A B : Type} (m : result A) (k : A -> result B) (e : exn) :
  bind m k = Raise e
  <-> m = Raise e \/ exists a, m = Ok a /\ k a = Raise e.
Proof.
  destruct m as [a|e']; simpl; split.
  - intros H. right. now exists a.
  - intros [[=]|(a' & [= <-] & H)]. exact H.
  - intros [= <-]. now left.
  - intros [[= <-]|(a' & [=] & _)]. reflexivity.
Qed.

(** A candidate fails when the request, the status check, the parser or
    the date conversion raises, and with that exception. *)
Lemma fetch_fails (env : Env) (url : string) (e : exn) :
  fetch env url = Raise e
  <-> requests_get env url 60 = Raise e
      \/ exists r, requests_get env url 60 = Ok r
           /\ (raise_for_status env r = Raise e
               \/ raise_for_status env r = Ok tt
                  /\ (read_csv env (text env r) = Raise e
                      \/ exists raw, read_csv env (text env r) = Ok raw
                           /\ date_to_datetime env raw = Raise e)).
Proof.
  unfold fetch. rewrite bind_raise.
  split.
  - intros [H|(r & Hr & H)]; [now left|right].
    exists r. split; [exact Hr|].
    apply bind_raise in H. destruct H as [H|([] & Hs & H)]; [now left|right].
    split; [exact Hs|].
    apply bind_raise in H. destruct H as [H|(raw & Hraw & H)]; [now left|right].
    now exists raw.
  - intros [H|(r & Hr & H)]; [now left|right].
    exists r. split; [exact Hr|].
    apply bind_raise.
    destruct H as [H|(Hs & H)]; [now left|right].
    exists tt. split; [exact Hs|].
    apply bind_raise.
    destruct H as [H|(raw & Hraw & H)]; [now left|right].
    now exists raw.
Qed.

Lemma fetch_succeeds (env : Env) (url : string) (df : DataFrame) :
  fetch env url = Ok df
  <-> exists r raw,
        requests_get env url 60 = Ok r
        /\ raise_for_status env r = Ok tt
        /\ read_csv env (text env r) = Ok raw
        /\ date_to_datetime env raw = Ok df.
Proof.
  unfold fetch. rewrite bind_ok. split.
  - intros (r & Hr & H). apply bind_ok in H. destruct H as ([] & Hs & H).
    apply bind_ok in H. destruct H as (raw & Hraw & H).
    now exists r, raw.
  - intros (r & raw & Hr & Hs & Hraw & H). exists r. split; [exact Hr|].
    apply bind_ok. exists tt. split; [exact Hs|].
    apply bind_ok. now exists raw.
Qed.

(** The loop stops at the first candidate that loads. *)
Lemma try_each_first_success (env : Env) (failing : list string) (url : string)
    (rest : list string) (last_error : option exn) (df : DataFrame) :
  (forall u, In u failing -> exists e, fetch env u = Raise e) ->
  fetch env url = Ok df ->
  try_each env (failing ++ url :: rest) last_error = Ok df.
Proof.
  revert last_error.
  induction failing as [|u failing IH]; intros last_error Hfail Hok; simpl.
  - now rewrite Hok.
  - destruct (Hfail u (or_introl eq_refl)) as (e & He). rewrite He.
    apply IH; [|exact Hok]. intros u' Hu'. apply Hfail. now right.
Qed.

(** When no candidate loads, the error raised quotes the exception of the
    last candidate (or what [last_error] held, when there is none). *)
Lemma try_each_all_fail (env : Env) (candidates : list string)
    (last_error : option exn) :
  (forall u, In u candidates -> exists e, fetch env u = Raise e) ->
  exists final : option exn,
    try_each env candidates last_error
    = Raise (RuntimeError
               ("Failed to download dataset. Last error: " ++ str_of final))
    /\ match rev candidates with
       | [] => final = last_error
       | u :: _ => exists e, fetch env u = Raise e /\ final = Some e
       end.
Proof.
  revert last_error.
  induction candidates as [|u rest IH]; intros last_error Hfail; simpl.
  - exists last_error. now split.
  - destruct (Hfail u (or_introl eq_refl)) as (e & He). rewrite He.
    destruct (IH (Some e)) as (final & Hrun & Hfinal).
    { intros u' Hu'. apply Hfail. now right. }
    exists final. split; [exact Hrun|].
    destruct (rev rest) as [|u' l] eqn:Hrev; simpl.
    + exists e. now split.
    + exact Hfinal.
Qed.

(** C3.  When the first candidate fails, whatever raised, and the second
    one answers with a success status, parses and has its dates converted,
    [load_data] returns that second frame; the first candidate's exception
    is not raised. *)
Theorem load_falls_back (env : Env) (e1 : exn) (r : Response env)
    (raw : RawFrame env) (df : DataFrame) :
  fetch env (nth 0 urls "") = Raise e1 ->
  requests_get env (nth 1 urls "") 60 = Ok r ->
  raise_for_status env r = Ok tt ->
  read_csv env (text env r) = Ok raw ->
  date_to_datetime env raw = Ok df ->
  load_data env = Ok df
  /\ (forall e, load_data env <> Raise e)
  /\ forall K c range,
       snd (app K env c range) = snd (dashboard K df c range).
Proof.
  intros H1 Hr Hs Hraw Hdf.
  assert (H2 : fetch env (nth 1 urls "") = Ok df).
  { apply fetch_succeeds. now exists r, raw. }
  assert (Hload : load_data env = Ok df).
  { unfold load_data, urls in *. simpl in *. now rewrite H1, H2. }
  split; [exact Hload|]. split.
  - intros e. rewrite Hload. discriminate.
  - intros K c range. unfold app. rewrite Hload. reflexivity.
Qed.

Lemma load_falls_back_witness :
  fetch mirror_only (nth 0 urls "")
  = Raise (ConnectionError "primary unreachable")
  /\ load_data mirror_only = Ok two_days.
Proof.
  split; [reflexivity|].
  exact (proj1 (load_falls_back mirror_only
                  (ConnectionError "primary unreachable") "csv" two_days
                  two_days eq_refl eq_refl eq_refl eq_refl eq_refl)).
Defined.

(** C4.  When every candidate fails, [load_data] raises a [RuntimeError]
    whose text ends with the text of the exception the last candidate
    raised, and the script ends with that error before any output on the
    data. *)
Theorem load_total_failure (env : Env) :
  (forall u, In u urls -> exists e, fetch env u = Raise e) ->
  exists e_last,
    fetch env (last urls "") = Raise e_last
    /\ load_data env
       = Raise (RuntimeError
                  ("Failed to download dataset. Last error: "
                   ++ exc_str e_last))
    /\ forall K c range,
         snd (app K env c range)
         = Failed (RuntimeError
                     ("Failed to download dataset. Last error: "
                      ++ exc_str e_last))
         /\ forallb (fun o => negb (shows_data o)) (fst (app K env c range))
            = true.
Proof.
  intros Hfail.
  destruct (try_each_all_fail env urls None Hfail) as (final & Hrun & Hfinal).
  simpl in Hfinal. destruct Hfinal as (e & He & ->).
  exists e. split; [exact He|]. split; [exact Hrun|].
  intros K c range. unfold app, load_data. rewrite Hrun. now split.
Qed.

Lemma offline_fails_everywhere (u : string) :
  In u urls -> exists e, fetch offline u = Raise e.
Proof. intros _. now exists (ConnectionError u). Qed.

Lemma load_total_failure_witness :
  exists e_last,
    fetch offline (last urls "") = Raise e_last
    /\ load_data offline
       = Raise (RuntimeError
                  ("Failed to download dataset. Last error: "
                   ++ exc_str e_last)).
Proof.
  destruct (load_total_failure offline offline_fails_everywhere)
    as (e & Hlast & Hload & _).
  exists e. now split.
Defined.

(** ** The empty view *)

Lemma filtered_df_absent (df : DataFrame) (c : string) (s e : CalDate) :
  (forall r, In r df -> location r <> Some c) -> filtered_df df c s e = [].
Proof.
  intros Habs. destruct (filtered_df df c s e) as [|r l] eqn:Hf; [reflexivity|].
  assert (Hin : In r (filtered_df df c s e)) by (rewrite Hf; now left).
  apply filtered_df_In in Hin. destruct Hin as (Hin & Hloc & _).
  now destruct (Habs r Hin).
Qed.

Lemma filtered_df_reversed (df : DataFrame) (c : string) (s e : CalDate) :
  (e < s)%Z -> filtered_df df c s e = [].
Proof.
  intros Hlt. destruct (filtered_df df c s e) as [|r l] eqn:Hf; [reflexivity|].
  assert (Hin : In r (filtered_df df c s e)) by (rewrite Hf; now left).
  apply filtered_df_In in Hin. lia.
Qed.

(** C7.  When the filter leaves no row (as it does when no row has the
    selected location, or when the start date is after the end date), the
    script shows the warning and stops there: it ends by [st.stop()], not
    by an exception, and its output holds no KPI, chart or preview. *)
Theorem empty_view_stops (K : SortKind) (df : DataFrame) (c : string)
    (range : DateInput) (s e : CalDate) :
  unpack_date_range range = Ok (s, e) ->
  (forall r, In r df -> location r <> Some c)
  \/ (e < s)%Z
  \/ filtered_df df c s e = [] ->
  filtered_df df c s e = []
  /\ dashboard K df c range = ([st_warning no_data_message], Stopped)
  /\ forallb (fun o => negb (shows_data o)) (fst (dashboard K df c range))
     = true.
Proof.
  intros Hrange Hcause.
  assert (Hempty : filtered_df df c s e = []).
  { destruct Hcause as [H|[H|H]].
    - now apply filtered_df_absent.
    - now apply filtered_df_reversed.
    - exact H. }
  assert (Hrun : dashboard K df c range
                 = ([st_warning no_data_message], Stopped)).
  { unfold dashboard. rewrite Hrange, Hempty. reflexivity. }
  split; [exact Hempty|]. split; [exact Hrun|].
  rewrite Hrun. reflexivity.
Qed.

Lemma empty_view_stops_witness :
  (forall r, In r two_days -> location r <> Some "Wakanda")
  /\ dashboard insertion_sort two_days "Wakanda"
       (date_tuple [(epoch_ordinal + 1)%Z; (epoch_ordinal + 2)%Z])
     = ([st_warning no_data_message], Stopped).
Proof.
  assert (Habsent : forall r, In r two_days -> location r <> Some "Wakanda").
  { intros r [<-|[<-|[]]]; discriminate. }
  split; [exact Habsent|].
  exact (proj1 (proj2 (empty_view_stops insertion_sort two_days "Wakanda"
                         (date_tuple [(epoch_ordinal + 1)%Z;
                                      (epoch_ordinal + 2)%Z])
                         (epoch_ordinal + 1)%Z (epoch_ordinal + 2)%Z
                         eq_refl (or_introl Habsent)))).
Defined.

(** With a row in the view the script does not take that exit. *)
Lemma nonempty_view_no_warning (K : SortKind) (df : DataFrame) (c : string)
    (range : DateInput) (s e : CalDate) :
  unpack_date_range range = Ok (s, e) ->
  filtered_df df c s e <> [] ->
  snd (dashboard K df c range) <> Stopped.
Proof.
  intros Hrange Hne. unfold dashboard. rewrite Hrange.
  destruct (filtered_df df c s e) as [|r l]; [now destruct Hne|]. simpl.
  destruct (iloc_last _); simpl; discriminate.
Qed.

(** ** Sorting algorithms *)

Section Orders.
Context {A : Type} (leb : A -> A -> bool).
Hypothesis leb_total : total_order leb.
Hypothesis leb_trans : transitive_order leb.

Let R (a b : A) : Prop := leb a b = true.

Lemma insert_sorted_perm (a : A) (l : list A) :
  Permutation (a :: l) (insert_sorted leb a l).
Proof.
  induction l as [|b t IH]; simpl; [reflexivity|].
  destruct (leb a b); [reflexivity|].
  rewrite perm_swap. now constructor.
Qed.

Lemma insert_behind_perm (a : A) (l : list A) :
  Permutation (a :: l) (insert_behind leb a l).
Proof.
  induction l as [|b t IH]; simpl; [reflexivity|].
  destruct (leb b a); [|reflexivity].
  rewrite perm_swap. now constructor.
Qed.

Lemma insert_sorted_sorted (a : A) (l : list A) :
  StronglySorted R l -> StronglySorted R (insert_sorted leb a l).
Proof.
  induction l as [|b t IH]; intros Hs; simpl.
  - repeat constructor.
  - apply StronglySorted_inv in Hs. destruct Hs as (Ht & Hb).
    destruct (leb a b) eqn:Hab.
    + constructor; [now constructor|].
      constructor; [exact Hab|].
      eapply Forall_impl; [|exact Hb]. intros x Hx. exact (leb_trans _ _ _ Hab Hx).
    + constructor; [now apply IH|].
      eapply Permutation_Forall; [apply insert_sorted_perm|].
      constructor; [|exact Hb].
      destruct (leb_total a b) as [H|H]; [congruence|exact H].
Qed.

Lemma insert_behind_sorted (a : A) (l : list A) :
  StronglySorted R l -> StronglySorted R (insert_behind leb a l).
Proof.
  induction l as [|b t IH]; intros Hs; simpl.
  - repeat constructor.
  - apply StronglySorted_inv in Hs. destruct Hs as (Ht & Hb).
    destruct (leb b a) eqn:Hba.
    + constructor; [now apply IH|].
      eapply Permutation_Forall; [apply insert_behind_perm|].
      now constructor.
    + assert (Hab : leb a b = true).
      { destruct (leb_total a b) as [H|H]; [exact H|congruence]. }
      constructor; [now constructor|].
      constructor; [exact Hab|].
      eapply Forall_impl; [|exact Hb]. intros x Hx. exact (leb_trans _ _ _ Hab Hx).
Qed.
End Orders.

Lemma insertion_sort_lawful : lawful insertion_sort.
Proof.
  intros A leb Htot Htrans l. unfold insertion_sort.
  induction l as [|a l (IHp & IHs)]; simpl.
  - split; constructor.
  - split.
    + rewrite <- insert_sorted_perm. now constructor.
    + now apply insert_sorted_sorted.
Qed.

Lemma backward_sort_lawful : lawful backward_sort.
Proof.
  intros A leb Htot Htrans l. unfold backward_sort.
  induction l as [|a l (IHp & IHs)]; simpl.
  - split; constructor.
  - split.
    + rewrite <- insert_behind_perm. now constructor.
    + now apply insert_behind_sorted.
Qed.

Lemma insertion_sort_stable : stable insertion_sort.
Proof. intros A leb _ _ l. reflexivity. Qed.

(** ** Lists *)

Lemma filter_rearranged {A : Type} (keep : A -> bool) (l1 l2 : list A)
    (H : Permutation l1 l2) :
  Permutation (filter keep l1) (filter keep l2).
Proof.
  induction H as [|x l l' _ IH|x y l|l l' l'' _ IH1 _ IH2]; simpl.
  - constructor.
  - destruct (keep x); [now constructor|exact IH].
  - destruct (keep x), (keep y); try reflexivity. apply perm_swap.
  - now transitivity (filter keep l').
Qed.

Lemma StronglySorted_filter {A : Type} (R : A -> A -> Prop) (f : A -> bool)
    (l : list A) :
  StronglySorted R l -> StronglySorted R (filter f l).
Proof.
  induction 1 as [|a l Hs IH Ha]; simpl; [constructor|].
  destruct (f a); [|exact IH].
  constructor; [exact IH|].
  rewrite Forall_forall in *. intros x Hx. apply Ha.
  now apply filter_In in Hx.
Qed.

Lemma StronglySorted_map {A B : Type} (R : B -> B -> Prop) (f : A -> B)
    (l : list A) :
  StronglySorted (fun a b => R (f a) (f b)) l -> StronglySorted R (map f l).
Proof.
  induction 1 as [|a l Hs IH Ha]; simpl; constructor; [exact IH|].
  rewrite Forall_forall in *. intros y Hy.
  apply in_map_iff in Hy. destruct Hy as (x & <- & Hx). now apply Ha.
Qed.

Lemma StronglySorted_impl_in {A : Type} (R R' : A -> A -> Prop) (l : list A) :
  (forall a b, In a l -> In b l -> R a b -> R' a b) ->
  StronglySorted R l -> StronglySorted R' l.
Proof.
  intros Himp Hs. induction Hs as [|a l Hs IH Ha]; constructor.
  - apply IH. intros x y Hx Hy. apply Himp; now right.
  - rewrite Forall_forall in *. intros x Hx.
    apply Himp; [now left|now right|now apply Ha].
Qed.

Lemma StronglySorted_app_inv {A : Type} (R : A -> A -> Prop) (l l' : list A) :
  StronglySorted R (l ++ l') ->
  StronglySorted R l /\ StronglySorted R l'
  /\ forall a b, In a l -> In b l' -> R a b.
Proof.
  induction l as [|x l IH]; simpl; intros Hs.
  - repeat split; [constructor|exact Hs|contradiction].
  - apply StronglySorted_inv in Hs. destruct Hs as (Hs & Hx).
    destruct (IH Hs) as (Hl & Hl' & Hcross).
    rewrite Forall_forall in Hx.
    repeat split; [|exact Hl'|].
    + constructor; [exact Hl|]. rewrite Forall_forall. intros y Hy.
      apply Hx, in_or_app. now left.
    + intros a b [<-|Ha] Hb; [apply Hx, in_or_app; now right|now apply Hcross].
Qed.

Lemma StronglySorted_app {A : Type} (R : A -> A -> Prop) (l l' : list A) :
  StronglySorted R l -> StronglySorted R l' ->
  (forall a b, In a l -> In b l' -> R a b) ->
  StronglySorted R (l ++ l').
Proof.
  intros Hl Hl' Hcross. induction Hl as [|x l Hl IH Hx]; simpl; [exact Hl'|].
  constructor.
  - apply IH. intros a b Ha. apply Hcross. now right.
  - rewrite Forall_forall in *. intros y Hy. apply in_app_or in Hy.
    destruct Hy as [Hy|Hy]; [now apply Hx|apply Hcross; [now left|exact Hy]].
Qed.

Lemma StronglySorted_rev {A : Type} (R : A -> A -> Prop) (l : list A) :
  StronglySorted R l -> StronglySorted (fun a b => R b a) (rev l).
Proof.
  induction 1 as [|x l Hl IH Hx]; simpl; [constructor|].
  apply StronglySorted_app; [exact IH|repeat constructor|].
  rewrite Forall_forall in Hx.
  intros a b Ha [<-|[]]. apply Hx. now apply in_rev.
Qed.

Lemma StronglySorted_firstn {A : Type} (R : A -> A -> Prop) (n : nat)
    (l : list A) :
  StronglySorted R l -> StronglySorted R (firstn n l).
Proof.
  intros Hs. rewrite <- (firstn_skipn n l) in Hs.
  now apply StronglySorted_app_inv in Hs.
Qed.

Lemma In_firstn {A : Type} (n : nat) (l : list A) (x : A) :
  In x (firstn n l) -> In x l.
Proof.
  intros Hx. rewrite <- (firstn_skipn n l). apply in_or_app. now left.
Qed.

(** In a list ordered by [R], the last element is above all. *)
Lemma StronglySorted_last {A : Type} (R : A -> A -> Prop) (l : list A) (z : A) :
  (forall a, R a a) ->
  StronglySorted R (l ++ [z]) -> forall a, In a (l ++ [z]) -> R a z.
Proof.
  intros Hrefl Hs a Ha. apply StronglySorted_app_inv in Hs.
  destruct Hs as (_ & _ & Hcross).
  apply in_app_or in Ha. destruct Ha as [Ha|[<-|[]]].
  - apply Hcross; [exact Ha|now left].
  - apply Hrefl.
Qed.

(** ** The frame sorted by date *)

Lemma date_leb_total : total_order date_leb.
Proof. intros a b. unfold date_leb. rewrite !Z.leb_le. lia. Qed.

Lemma date_leb_trans : transitive_order date_leb.
Proof. intros a b c. unfold date_leb. rewrite !Z.leb_le. lia. Qed.

Lemma insertion_sort_perm {A : Type} (leb : A -> A -> bool) (l : list A) :
  Permutation l (insertion_sort A leb l).
Proof.
  unfold insertion_sort. induction l as [|a l IH]; simpl; [constructor|].
  rewrite <- insert_sorted_perm. now constructor.
Qed.

Section SortedFrame.
Variable K : SortKind.
Hypothesis K_lawful : lawful K.

Lemma sort_values_date_perm (df : DataFrame) :
  Permutation df (sort_values_date K df).
Proof.
  unfold sort_values_date.
  destruct (K_lawful _ _ date_leb_total date_leb_trans
              (map (fun r => (date r, r)) df)) as (Hp & _).
  apply (Permutation_map snd) in Hp.
  rewrite map_map, map_id in Hp. exact Hp.
Qed.

Lemma sort_values_date_sorted (df : DataFrame) :
  StronglySorted by_date (sort_values_date K df).
Proof.
  unfold sort_values_date.
  destruct (K_lawful _ _ date_leb_total date_leb_trans
              (map (fun r => (date r, r)) df)) as (Hp & Hs).
  apply StronglySorted_map.
  eapply StronglySorted_impl_in; [|exact Hs].
  assert (Hkey : forall p, In p (K _ date_leb
                                   (map (fun r => (date r, r)) df)) ->
                           fst p = date (snd p)).
  { intros p Hin. apply (Permutation_in _ (Permutation_sym Hp)) in Hin.
    apply in_map_iff in Hin. now destruct Hin as (r & <- & _). }
  intros a b Ha Hb Hab. unfold by_date. cbv beta.
  rewrite <- (Hkey a Ha), <- (Hkey b Hb). now apply Z.leb_le.
Qed.

(** The rows of one location, in the sorted frame: the same rows as in
    the data set, ordered by date. *)
Lemma get_group_sorted (df : DataFrame) (name : string) :
  Permutation (get_group name df) (get_group name (sort_values_date K df))
  /\ StronglySorted by_date (get_group name (sort_values_date K df)).
Proof.
  split.
  - apply filter_rearranged, sort_values_date_perm.
  - apply StronglySorted_filter, sort_values_date_sorted.
Qed.
End SortedFrame.

(** ** Group keys *)

Lemma group_keys_In (df : DataFrame) (name : string) :
  In name (group_keys df) <-> exists r, In r df /\ location r = Some name.
Proof.
  unfold group_keys.
  assert (Hp := insertion_sort_perm String.leb
                  (nodup string_dec
                     (flat_map (fun r => match location r with
                                         | Some l => [l]
                                         | None => []
                                         end) df))).
  split.
  - intros Hin. apply (Permutation_in _ (Permutation_sym Hp)) in Hin.
    apply nodup_In, in_flat_map in Hin. destruct Hin as (r & Hr & Hl).
    exists r. split; [exact Hr|].
    destruct (location r) as [l|]; [|contradiction].
    destruct Hl as [->|[]]. reflexivity.
  - intros (r & Hr & Hl). apply (Permutation_in _ Hp).
    apply nodup_In, in_flat_map. exists r. split; [exact Hr|].
    rewrite Hl. now left.
Qed.

Lemma group_keys_NoDup (df : DataFrame) : NoDup (group_keys df).
Proof.
  unfold group_keys. eapply Permutation_NoDup.
  - apply insertion_sort_perm.
  - apply NoDup_nodup.
Qed.

(** ** One row per location *)

Lemma last_of_group_location (sorted : DataFrame) (name : string) (row : Row) :
  In row (last_of_group sorted name) -> location row = Some name.
Proof.
  unfold last_of_group. destruct (get_group name sorted); [contradiction|].
  intros [<-|[]]. reflexivity.
Qed.

Lemma filter_none {A : Type} (f : A -> bool) (l : list A) :
  (forall x, In x l -> f x = false) -> filter f l = [].
Proof.
  induction l as [|a l IH]; intros Hf; simpl; [reflexivity|].
  rewrite (Hf a (or_introl eq_refl)). apply IH. intros x Hx. apply Hf. now right.
Qed.

Lemma filter_all {A : Type} (f : A -> bool) (l : list A) :
  (forall x, In x l -> f x = true) -> filter f l = l.
Proof.
  induction l as [|a l IH]; intros Hf; simpl; [reflexivity|].
  rewrite (Hf a (or_introl eq_refl)). f_equal. apply IH.
  intros x Hx. apply Hf. now right.
Qed.

Lemma loc_eq_false (name : string) (r : Row) :
  loc_eq name r = false <-> location r <> Some name.
Proof. rewrite <- not_true_iff_false, loc_eq_true. reflexivity. Qed.

Lemma filter_other_group (sorted : DataFrame) (name k : string) :
  k <> name -> filter (loc_eq name) (last_of_group sorted k) = [].
Proof.
  intros Hne. apply filter_none. intros row Hrow.
  apply last_of_group_location in Hrow. apply loc_eq_false. congruence.
Qed.

Lemma filter_own_group (sorted : DataFrame) (name : string) :
  filter (loc_eq name) (last_of_group sorted name) = last_of_group sorted name.
Proof.
  apply filter_all. intros row Hrow.
  apply last_of_group_location in Hrow. now apply loc_eq_true.
Qed.

Lemma filter_groups (sorted : DataFrame) (name : string) (keys : list string) :
  NoDup keys ->
  filter (loc_eq name) (flat_map (last_of_group sorted) keys)
  = if in_dec string_dec name keys then last_of_group sorted name else [].
Proof.
  induction 1 as [|k keys Hk Hnd IH]; simpl; [reflexivity|].
  rewrite filter_app, IH.
  destruct (string_dec k name) as [->|Hne].
  - rewrite filter_own_group.
    destruct (in_dec string_dec name keys); [contradiction|apply app_nil_r].
  - rewrite filter_other_group by exact Hne. simpl.
    destruct (in_dec string_dec name keys); reflexivity.
Qed.

(** The snapshot's rows of one location. *)
Lemma latest_all_of (K : SortKind) (df : DataFrame) (name : string) :
  filter (loc_eq name) (latest_all K df)
  = if in_dec string_dec name (group_keys df)
    then last_of_group (sort_values_date K df) name
    else [].
Proof. unfold latest_all. apply filter_groups, group_keys_NoDup. Qed.

Lemma latest_all_location (K : SortKind) (df : DataFrame) (row : Row) :
  In row (latest_all K df) ->
  exists name, location row = Some name /\ In name (group_keys df).
Proof.
  unfold latest_all. intros Hin. apply in_flat_map in Hin.
  destruct Hin as (name & Hname & Hrow). exists name.
  split; [now apply last_of_group_location in Hrow|exact Hname].
Qed.

(** ** The last row of a group *)

Lemma last_map {A B : Type} (f : A -> B) (l : list A) (d : A) :
  last (map f l) (f d) = f (last l d).
Proof.
  induction l as [|a l IH]; [reflexivity|].
  simpl. destruct l as [|b l]; [reflexivity|exact IH].
Qed.

Lemma last_cons_default {A : Type} (a : A) (l : list A) :
  last (a :: l) a = last l a.
Proof. destruct l; reflexivity. Qed.

Lemma last_notna_snoc {A : Type} (col : list (option A)) (v : option A) :
  last_notna (col ++ [v])
  = match v with Some x => Some x | None => last_notna col end.
Proof.
  induction col as [|w col IH]; simpl.
  - destruct v; reflexivity.
  - rewrite IH. destruct v; [reflexivity|]. reflexivity.
Qed.

Lemma last_notna_present {A : Type} (col : list (option A)) (v : option A) :
  notna v = true -> last_notna (col ++ [v]) = v.
Proof. rewrite last_notna_snoc. destruct v; [reflexivity|discriminate]. Qed.

(** A value [last()] reports is in the column, and nothing present comes
    after it. *)
Lemma last_notna_Some {A : Type} (col : list (option A)) (x : A) :
  last_notna col = Some x
  <-> exists before after,
        col = before ++ Some x :: after /\ Forall (fun v => v = None) after.
Proof.
  split.
  - induction col as [|v col IH] using rev_ind; [discriminate|].
    rewrite last_notna_snoc. destruct v as [y|].
    + intros [= ->]. exists col, []. now split.
    + intros Hx. destruct (IH Hx) as (before & after & -> & Hnone).
      exists before, (after ++ [None]). split.
      * now rewrite <- app_assoc.
      * apply Forall_app. split; [exact Hnone|now constructor].
  - intros (before & after & -> & Hnone).
    induction after as [|v after IH] using rev_ind.
    + now rewrite last_notna_snoc.
    + apply Forall_app in Hnone. destruct Hnone as (Hnone & Hv).
      apply Forall_inv in Hv. subst v.
      change (before ++ Some x :: after ++ [None])
        with (before ++ (Some x :: after) ++ [None]).
      rewrite app_assoc, last_notna_snoc. now apply IH.
Qed.

Lemma get_group_In (name : string) (df : DataFrame) (r : Row) :
  In r (get_group name df) <-> In r df /\ location r = Some name.
Proof. unfold get_group. now rewrite filter_In, loc_eq_true. Qed.

(** The row built for a group whose rows, in date order, are [g ++ [z]]. *)
Lemma agg_last_snoc (name : string) (first z : Row) (rest g : DataFrame) :
  first :: rest = g ++ [z] ->
  agg_last name first rest
  = {| location := Some name;
       date := date z;
       total_cases := last_notna (map total_cases (g ++ [z]));
       total_deaths := last_notna (map total_deaths (g ++ [z]));
       total_deaths_per_million :=
         last_notna (map total_deaths_per_million (g ++ [z]));
       people_fully_vaccinated_per_hundred :=
         last_notna (map people_fully_vaccinated_per_hundred (g ++ [z])) |}.
Proof.
  intros Heq. unfold agg_last. rewrite Heq. f_equal.
  rewrite last_map, <- last_cons_default, Heq. now rewrite last_last.
Qed.

(** C2, as the code has it.  For a location that occurs in the data set
    the snapshot holds exactly one row.  Its date is the greatest date of
    that location's rows.  Each of its metric cells is the last present
    value of the column among these rows taken in date order, so the row
    is the location's last row when that one has no missing cell. *)
Theorem latest_per_location (K : SortKind) (df : DataFrame) (name : string) :
  lawful K ->
  (exists r, In r df /\ location r = Some name) ->
  exists (row z : Row) (g : DataFrame),
    filter (loc_eq name) (latest_all K df) = [row]
    /\ Permutation (get_group name df) (g ++ [z])
    /\ StronglySorted by_date (g ++ [z])
    /\ location row = Some name
    /\ date row = date z
    /\ (forall r, In r df -> location r = Some name -> (date r <= date row)%Z)
    /\ total_cases row = last_notna (map total_cases (g ++ [z]))
    /\ total_deaths row = last_notna (map total_deaths (g ++ [z]))
    /\ total_deaths_per_million row
       = last_notna (map total_deaths_per_million (g ++ [z]))
    /\ people_fully_vaccinated_per_hundred row
       = last_notna (map people_fully_vaccinated_per_hundred (g ++ [z]))
    /\ (complete z = true -> row = z).
Proof.
  intros HK (r0 & Hr0 & Hloc0).
  destruct (get_group_sorted K HK df name) as (Hperm & Hsorted).
  assert (Hin0 : In r0 (get_group name (sort_values_date K df))).
  { apply (Permutation_in _ Hperm), get_group_In. now split. }
  destruct (get_group name (sort_values_date K df)) as [|first rest] eqn:Hgroup;
    [contradiction|].
  destruct (exists_last (l := first :: rest)) as (g & z & Heq); [discriminate|].
  rewrite Heq in Hperm, Hsorted.
  assert (Hz : In z df /\ location z = Some name).
  { apply get_group_In, (Permutation_in _ (Permutation_sym Hperm)).
    apply in_or_app. right. now left. }
  exists (agg_last name first rest), z, g.
  split.
  { rewrite latest_all_of.
    destruct (in_dec string_dec name (group_keys df)) as [_|Hout].
    - unfold last_of_group. now rewrite Hgroup.
    - destruct Hout. apply group_keys_In. now exists r0. }
  rewrite (agg_last_snoc name first z rest g Heq). simpl.
  repeat split; try assumption.
  - intros r Hr Hloc.
    apply (StronglySorted_last by_date g z); [intros a; unfold by_date; lia|exact Hsorted|].
    apply (Permutation_in _ Hperm), get_group_In. now split.
  - intros Hcomplete. unfold complete in Hcomplete.
    rewrite !andb_true_iff in Hcomplete.
    destruct Hcomplete as (((Hc & Hd) & Hm) & Hv).
    rewrite !map_app. simpl.
    rewrite !last_notna_present by assumption.
    destruct Hz as (_ & Hlocz). rewrite <- Hlocz. now destruct z.
Qed.

Lemma latest_per_location_witness :
  lawful insertion_sort
  /\ (exists r, In r two_days /\ location r = Some "Atlantis")
  /\ exists (row z : Row) (g : DataFrame),
       filter (loc_eq "Atlantis") (latest_all insertion_sort two_days) = [row]
       /\ Permutation (get_group "Atlantis" two_days) (g ++ [z])
       /\ StronglySorted by_date (g ++ [z])
       /\ location row = Some "Atlantis"
       /\ date row = date z
       /\ (forall r, In r two_days -> location r = Some "Atlantis" ->
                     (date r <= date row)%Z)
       /\ total_cases row = last_notna (map total_cases (g ++ [z]))
       /\ total_deaths row = last_notna (map total_deaths (g ++ [z]))
       /\ total_deaths_per_million row
          = last_notna (map total_deaths_per_million (g ++ [z]))
       /\ people_fully_vaccinated_per_hundred row
          = last_notna (map people_fully_vaccinated_per_hundred (g ++ [z]))
       /\ (complete z = true -> row = z).
Proof.
  assert (Hsome : exists r, In r two_days /\ location r = Some "Atlantis").
  { eexists. split; [left; reflexivity|reflexivity]. }
  split; [exact insertion_sort_lawful|]. split; [exact Hsome|].
  exact (latest_per_location insertion_sort two_days "Atlantis"
           insertion_sort_lawful Hsome).
Defined.

(** The snapshot row of a location need not be one of its rows: in
    [two_days] the later row has no death rate, and the snapshot takes the
    rate from the earlier one. *)
Lemma latest_row_not_original :
  ~ (forall (K : SortKind) (df : DataFrame) (name : string),
        lawful K ->
        (exists r, In r df /\ location r = Some name) ->
        exists row,
          filter (loc_eq name) (latest_all K df) = [row]
          /\ In row df
          /\ forall r, In r df -> location r = Some name ->
                       (date r <= date row)%Z).
Proof.
  intros Hall.
  destruct (Hall insertion_sort two_days "Atlantis" insertion_sort_lawful)
    as (row & Hrow & Hin & _).
  { eexists. split; [left; reflexivity|reflexivity]. }
  vm_compute in Hrow. injection Hrow as <-.
  destruct Hin as [H|[H|[]]]; discriminate H.
Qed.

(** ** The frame sorted by a metric, largest first *)

Lemma Q_leb_total : total_order Q_leb.
Proof.
  intros a b. unfold Q_leb. rewrite !Qle_bool_iff.
  destruct (Qlt_le_dec (fst a) (fst b)) as [H|H]; [left|right]; auto.
  now apply Qlt_le_weak.
Qed.

Lemma Q_leb_trans : transitive_order Q_leb.
Proof.
  intros a b c. unfold Q_leb. rewrite !Qle_bool_iff. apply Qle_trans.
Qed.

Lemma keyed_In (m : Metric) (df : DataFrame) (p : Q * Row) :
  In p (keyed m df) <-> In (snd p) df /\ m (snd p) = Some (fst p).
Proof.
  unfold keyed. rewrite in_flat_map. split.
  - intros (r & Hr & Hp). destruct (m r) as [q|] eqn:Hm; [|contradiction].
    destruct Hp as [<-|[]]. now split.
  - intros (Hr & Hm). exists (snd p). split; [exact Hr|].
    rewrite Hm. left. now destruct p.
Qed.

Lemma keyed_rows (m : Metric) (df : DataFrame) :
  map snd (keyed m df) = dropna_subset m df.
Proof.
  unfold keyed, dropna_subset. induction df as [|r df IH]; simpl; [reflexivity|].
  destruct (m r); simpl; now rewrite IH.
Qed.

Lemma dropna_subset_id (m : Metric) (df : DataFrame) :
  (forall r, In r df -> notna (m r) = true) -> dropna_subset m df = df.
Proof. apply filter_all. Qed.

Lemma present_then_missing {A : Type} (present : A -> bool) (l : list A) :
  Permutation l (filter present l ++ filter (fun x => negb (present x)) l).
Proof.
  induction l as [|a l IH]; simpl; [constructor|].
  destruct (present a); simpl.
  - now constructor.
  - now apply Permutation_cons_app.
Qed.

Lemma filter_firstn {A : Type} (f : A -> bool) (n : nat) (l : list A) :
  exists k, filter f (firstn n l) = firstn k (filter f l).
Proof.
  revert n. induction l as [|a l IH]; intros n.
  - exists 0%nat. now destruct n.
  - destruct n as [|n]; [now exists 0%nat|]. simpl.
    destruct (IH n) as (k & Hk). destruct (f a).
    + exists (S k). simpl. now rewrite Hk.
    + now exists k.
Qed.

Lemma subseq_refl {A : Type} (l : list A) : subseq l l.
Proof. induction l; now constructor. Qed.

Lemma subseq_empty {A : Type} (l : list A) : subseq [] l.
Proof. induction l; now constructor. Qed.

Lemma subseq_firstn {A : Type} (k : nat) (l : list A) : subseq (firstn k l) l.
Proof.
  revert k. induction l as [|a l IH]; intros [|k]; simpl.
  - constructor.
  - constructor.
  - apply subseq_empty.
  - apply subseq_take, IH.
Qed.

Section SortedByMetric.
Variable K : SortKind.
Hypothesis K_lawful : lawful K.
Variable m : Metric.

Lemma sort_values_desc_perm (df : DataFrame) :
  Permutation df (sort_values_desc K m df).
Proof.
  unfold sort_values_desc.
  destruct (K_lawful _ _ Q_leb_total Q_leb_trans (rev (keyed m df)))
    as (Hp & _).
  rewrite (present_then_missing (fun r => notna (m r)) df) at 1.
  apply Permutation_app_tail.
  change (filter (fun r => notna (m r)) df) with (dropna_subset m df).
  rewrite <- keyed_rows. apply Permutation_map.
  rewrite <- Permutation_rev, <- Hp. apply Permutation_rev.
Qed.

Lemma sort_values_desc_present (df : DataFrame) :
  (forall r, In r df -> notna (m r) = true) ->
  sort_values_desc K m df
  = map snd (rev (K (Q * Row)%type Q_leb (rev (keyed m df)))).
Proof.
  intros Hall. unfold sort_values_desc.
  rewrite filter_none; [apply app_nil_r|].
  intros r Hr. now rewrite (Hall r Hr).
Qed.

Lemma sort_values_desc_sorted (df : DataFrame) :
  (forall r, In r df -> notna (m r) = true) ->
  StronglySorted (metric_ge m) (sort_values_desc K m df).
Proof.
  intros Hall. rewrite sort_values_desc_present by exact Hall.
  destruct (K_lawful _ _ Q_leb_total Q_leb_trans (rev (keyed m df)))
    as (Hp & Hs).
  apply StronglySorted_map.
  apply StronglySorted_rev in Hs.
  eapply StronglySorted_impl_in; [|exact Hs].
  assert (Hkey : forall p, In p (rev (K _ Q_leb (rev (keyed m df)))) ->
                           m (snd p) = Some (fst p)).
  { intros p Hin. apply in_rev in Hin.
    apply (Permutation_in _ (Permutation_sym Hp)) in Hin.
    apply in_rev in Hin. now apply keyed_In in Hin. }
  intros a b Ha Hb Hab. unfold metric_ge.
  rewrite (Hkey a Ha), (Hkey b Hb). now apply Qle_bool_iff.
Qed.
End SortedByMetric.

(** ** The ranked rows *)

Lemma excluded_false (exclude : list string) (r : Row) :
  excluded exclude r = false
  <-> forall name, In name exclude -> location r <> Some name.
Proof.
  unfold excluded. rewrite <- not_true_iff_false, existsb_exists. split.
  - intros Hno name Hin Hloc. apply Hno. exists name.
    split; [exact Hin|now apply loc_eq_true].
  - intros Hall (name & Hin & Heq). apply loc_eq_true in Heq.
    exact (Hall name Hin Heq).
Qed.

Lemma ranked_In (m : Metric) (exclude : list string) (snapshot : DataFrame)
    (r : Row) :
  In r (ranked m exclude snapshot)
  <-> In r snapshot /\ notna (m r) = true /\ excluded exclude r = false.
Proof.
  unfold ranked, dropna_subset. rewrite !filter_In, negb_true_iff. tauto.
Qed.

Lemma top10_is_topNByMetric (K : SortKind) (snapshot : DataFrame) :
  top10 K snapshot
  = topNByMetric K total_deaths_per_million 10 ["World"] snapshot.
Proof.
  unfold top10, topNByMetric. do 2 f_equal.
  apply filter_ext. intros r. unfold loc_ne, excluded. simpl.
  now rewrite orb_false_r.
Qed.

(** C5.  The ranking holds at most [n] rows (as many as [n] when that many
    are left to rank), each of them a row of the snapshot whose metric is
    present and whose location is not excluded, and the metric does not
    increase from one row to the next.  The script's [top10] is the
    ranking by deaths per million of ten rows without "World". *)
Theorem top_n_correct (K : SortKind) (m : Metric) (n : nat)
    (exclude : list string) (snapshot : DataFrame) :
  lawful K ->
  (List.length (topNByMetric K m n exclude snapshot) <= n)%nat
  /\ List.length (topNByMetric K m n exclude snapshot)
     = Nat.min n (List.length (ranked m exclude snapshot))
  /\ (forall r, In r (topNByMetric K m n exclude snapshot) ->
        In r snapshot
        /\ (exists x, m r = Some x)
        /\ forall name, In name exclude -> location r <> Some name)
  /\ StronglySorted (metric_ge m) (topNByMetric K m n exclude snapshot)
  /\ top10 K snapshot
     = topNByMetric K total_deaths_per_million 10 ["World"] snapshot.
Proof.
  intros HK. unfold topNByMetric, head.
  fold (ranked m exclude snapshot).
  assert (Hperm := sort_values_desc_perm K HK m (ranked m exclude snapshot)).
  assert (Hpresent : forall r, In r (ranked m exclude snapshot) ->
                               notna (m r) = true).
  { intros r Hr. now apply ranked_In in Hr. }
  split; [apply firstn_le_length|].
  split; [rewrite length_firstn; now rewrite <- (Permutation_length Hperm)|].
  split; [|split].
  - intros r Hr. apply In_firstn in Hr.
    apply (Permutation_in _ (Permutation_sym Hperm)), ranked_In in Hr.
    destruct Hr as (Hin & Hm & Hex). split; [exact Hin|]. split.
    + destruct (m r) as [x|]; [now exists x|discriminate].
    + now apply excluded_false.
  - apply StronglySorted_firstn, sort_values_desc_sorted; assumption.
  - apply top10_is_topNByMetric.
Qed.

Lemma top_n_correct_witness :
  lawful insertion_sort
  /\ topNByMetric insertion_sort total_deaths_per_million 2 ["World"]
       four_places
     = [ sample_row "Cascadia" 1 None (Some (7 # 1)) (Some (60 # 1));
         sample_row "Atlantis" 1 (Some (10 # 1)) (Some (5 # 1))
           (Some (50 # 1)) ]
  /\ (List.length (topNByMetric insertion_sort total_deaths_per_million 2
                     ["World"] four_places) <= 2)%nat.
Proof.
  split; [exact insertion_sort_lawful|]. split; [reflexivity|].
  exact (proj1 (top_n_correct insertion_sort total_deaths_per_million 2
                  ["World"] four_places insertion_sort_lawful)).
Defined.

(** ** Rows with equal values *)

Lemma subseq_filter {A : Type} (f : A -> bool) (l1 l2 : list A) :
  subseq l1 l2 -> subseq (filter f l1) (filter f l2).
Proof.
  induction 1 as [|a l1 l2 _ IH|a l1 l2 _ IH]; simpl.
  - constructor.
  - destruct (f a); [now constructor|exact IH].
  - destruct (f a); [now constructor|exact IH].
Qed.

Lemma subseq_filter_l {A : Type} (f : A -> bool) (l : list A) :
  subseq (filter f l) l.
Proof.
  induction l as [|a l IH]; simpl; [constructor|].
  destruct (f a); now constructor.
Qed.

Lemma subseq_trans {A : Type} (l1 l2 l3 : list A) :
  subseq l1 l2 -> subseq l2 l3 -> subseq l1 l3.
Proof.
  intros H12 H23. revert l1 H12.
  induction H23 as [|a l2 l3 _ IH|a l2 l3 _ IH]; intros l1 H12.
  - exact H12.
  - apply subseq_skip, IH, H12.
  - inversion H12 as [|b k1 k2 Hk|b k1 k2 Hk]; subst.
    + apply subseq_skip, IH, Hk.
    + apply subseq_take, IH, Hk.
Qed.

(** Insertion leaves a class of equal keys as it finds it. *)
Lemma insert_sorted_class {A : Type} (leb : A -> A -> bool) (P : A -> bool)
    (a : A) (l : list A) :
  (forall x y, P x = true -> P y = true -> leb x y = true) ->
  filter P (insert_sorted leb a l) = filter P (a :: l).
Proof.
  intros Hclass. induction l as [|b t IH]; [reflexivity|].
  simpl. destruct (leb a b) eqn:Hab; [reflexivity|].
  simpl. rewrite IH. simpl.
  destruct (P a) eqn:Ha, (P b) eqn:Hb; try reflexivity.
  rewrite (Hclass a b Ha Hb) in Hab. discriminate.
Qed.

Lemma insertion_sort_class {A : Type} (leb : A -> A -> bool) (P : A -> bool)
    (l : list A) :
  (forall x y, P x = true -> P y = true -> leb x y = true) ->
  filter P (insertion_sort A leb l) = filter P l.
Proof.
  intros Hclass. unfold insertion_sort.
  induction l as [|a l IH]; [reflexivity|].
  simpl fold_right. rewrite insert_sorted_class by exact Hclass.
  simpl. now rewrite IH.
Qed.

Lemma Q_leb_class (v : Q) (x y : Q * Row) :
  Qeq_bool (fst x) v = true -> Qeq_bool (fst y) v = true -> Q_leb x y = true.
Proof.
  unfold Q_leb. rewrite !Qeq_bool_iff, Qle_bool_iff.
  intros -> ->. apply Qle_refl.
Qed.

(** A stable algorithm under [sort_values_desc] keeps the rows of equal
    value in the order of the frame. *)
Lemma sort_values_desc_class (K : SortKind) (m : Metric) (v : Q)
    (df : DataFrame) :
  stable K ->
  (forall r, In r df -> notna (m r) = true) ->
  filter (same_value m v) (sort_values_desc K m df)
  = filter (same_value m v) df.
Proof.
  intros Hstable Hall.
  unfold sort_values_desc.
  rewrite (filter_none (fun r => negb (notna (m r)))), app_nil_r
    by (intros r Hr; now rewrite (Hall r Hr)).
  rewrite (Hstable _ _ Q_leb_total Q_leb_trans).
  rewrite <- (dropna_subset_id m df Hall) at 2. rewrite <- keyed_rows.
  assert (Hswap : forall l : list (Q * Row),
             (forall p, In p l -> m (snd p) = Some (fst p)) ->
             filter (same_value m v) (map snd l)
             = map snd (filter (fun p => Qeq_bool (fst p) v) l)).
  { induction l as [|p l IH]; intros Hkey; [reflexivity|]. simpl.
    unfold same_value at 1. rewrite (Hkey p (or_introl eq_refl)).
    rewrite IH by (intros q Hq; apply Hkey; now right).
    now destruct (Qeq_bool (fst p) v). }
  rewrite !Hswap.
  - rewrite filter_rev, insertion_sort_class by apply Q_leb_class.
    now rewrite filter_rev, rev_involutive.
  - intros p Hp. now apply keyed_In in Hp.
  - intros p Hp. apply in_rev in Hp.
    apply (Permutation_in _ (Permutation_sym (insertion_sort_perm _ _))) in Hp.
    apply in_rev in Hp. now apply keyed_In in Hp.
Qed.

(** Whatever the algorithm, the ranking is the first [n] rows of the
    ranked rows put in decreasing order of the metric.  The order among
    rows of equal value is the algorithm's: a stable one, under the
    reversals of [sort_values_desc], leaves them in the order they have in
    the snapshot. *)
Theorem top_n_ties (K : SortKind) (m : Metric) (n : nat)
    (exclude : list string) (snapshot : DataFrame) (v : Q) :
  lawful K ->
  (exists sorted,
      Permutation (ranked m exclude snapshot) sorted
      /\ StronglySorted (metric_ge m) sorted
      /\ topNByMetric K m n exclude snapshot = firstn n sorted)
  /\ (stable K ->
      (exists k,
          filter (same_value m v) (topNByMetric K m n exclude snapshot)
          = firstn k (filter (same_value m v) (ranked m exclude snapshot)))
      /\ subseq
           (filter (same_value m v) (topNByMetric K m n exclude snapshot))
           (filter (same_value m v) snapshot)).
Proof.
  intros HK.
  assert (Hpresent : forall r, In r (ranked m exclude snapshot) ->
                               notna (m r) = true).
  { intros r Hr. now apply ranked_In in Hr. }
  split.
  - exists (sort_values_desc K m (ranked m exclude snapshot)).
    split; [now apply sort_values_desc_perm|].
    split; [now apply sort_values_desc_sorted|reflexivity].
  - intros Hstable.
    assert (Hprefix : exists k,
               filter (same_value m v) (topNByMetric K m n exclude snapshot)
               = firstn k (filter (same_value m v)
                             (ranked m exclude snapshot))).
    { unfold topNByMetric, head. fold (ranked m exclude snapshot).
      destruct (filter_firstn (same_value m v) n
                  (sort_values_desc K m (ranked m exclude snapshot)))
        as (k & Hk).
      exists k. rewrite Hk. now rewrite sort_values_desc_class. }
    split; [exact Hprefix|].
    destruct Hprefix as (k & ->).
    eapply subseq_trans; [apply subseq_firstn|].
    apply subseq_filter. unfold ranked, dropna_subset.
    eapply subseq_trans; apply subseq_filter_l.
Qed.

(** ** The scatter input *)

Lemma forallb_negb_existsb {A : Type} (f : A -> bool) (l : list A) :
  forallb (fun x => negb (f x)) l = negb (existsb f l).
Proof.
  induction l as [|a l IH]; [reflexivity|]. simpl.
  now rewrite IH, negb_orb.
Qed.

Lemma exclusion_agrees (x y : option Q) (l : string) (exclude : list string)
    (r : Row) :
  location r = Some l ->
  forallb (fun name => scatter_loc_ne name (x, y, Some l)) exclude
  = negb (excluded exclude r).
Proof.
  intros Hl. unfold excluded. rewrite <- forallb_negb_existsb.
  induction exclude as [|name exclude IH]; [reflexivity|].
  cbn [forallb]. rewrite IH. f_equal.
  unfold loc_eq. now rewrite Hl.
Qed.

(** On a frame where every row has its location, [pairedMetrics] is a
    selection of rows followed by a projection. *)
Lemma pairedMetrics_located (mx my : Metric) (exclude : list string)
    (snapshot : DataFrame) :
  (forall r, In r snapshot -> exists l, location r = Some l) ->
  pairedMetrics mx my exclude snapshot
  = map (fun r => (mx r, my r, location r))
      (filter (fun r => notna (mx r) && notna (my r)
                        && negb (excluded exclude r)) snapshot).
Proof.
  unfold pairedMetrics, dropna.
  induction snapshot as [|r snapshot IH]; intros Hloc; [reflexivity|].
  assert (IH' := IH (fun r' Hr' => Hloc r' (or_intror Hr'))). clear IH.
  destruct (Hloc r (or_introl eq_refl)) as (l & Hl).
  assert (Hex := exclusion_agrees (mx r) (my r) l exclude r Hl).
  simpl. rewrite Hl.
  destruct (mx r) as [x|] eqn:Hx; destruct (my r) as [y|] eqn:Hy; simpl;
    try exact IH'.
  simpl in Hex. rewrite Hex. destruct (excluded exclude r); simpl; [exact IH'|].
  now rewrite Hx, Hy, Hl, IH'.
Qed.

Lemma scatter_df_is_pairedMetrics (snapshot : DataFrame) :
  scatter_df snapshot
  = pairedMetrics people_fully_vaccinated_per_hundred total_deaths_per_million
      ["World"] snapshot.
Proof.
  unfold scatter_df, pairedMetrics. apply filter_ext.
  intros t. simpl. now rewrite andb_true_r.
Qed.

(** C9.  From the snapshot, the scatter input keeps the rows that have
    both metrics and whose location is not excluded, in the snapshot's
    order, and for each of them gives the two values and the location;
    every other row is dropped.  The script's [scatter_df] is this for the
    vaccination rate, the deaths per million and "World". *)
Theorem paired_metrics_correct (K : SortKind) (df : DataFrame)
    (mx my : Metric) (exclude : list string) :
  pairedMetrics mx my exclude (latest_all K df)
  = map (fun r => (mx r, my r, location r))
      (filter (fun r => notna (mx r) && notna (my r)
                        && negb (excluded exclude r)) (latest_all K df))
  /\ (forall t,
        In t (pairedMetrics mx my exclude (latest_all K df))
        <-> exists r x y l,
              In r (latest_all K df)
              /\ mx r = Some x /\ my r = Some y /\ location r = Some l
              /\ ~ In l exclude
              /\ t = (Some x, Some y, Some l))
  /\ scatter_df (latest_all K df)
     = pairedMetrics people_fully_vaccinated_per_hundred
         total_deaths_per_million ["World"] (latest_all K df).
Proof.
  assert (Hloc : forall r, In r (latest_all K df) ->
                           exists l, location r = Some l).
  { intros r Hr. apply latest_all_location in Hr.
    destruct Hr as (l & Hl & _). now exists l. }
  assert (Heq := pairedMetrics_located mx my exclude (latest_all K df) Hloc).
  split; [exact Heq|]. split; [|apply scatter_df_is_pairedMetrics].
  intros t. rewrite Heq, in_map_iff. split.
  - intros (r & <- & Hr). apply filter_In in Hr. destruct Hr as (Hr & Hkeep).
    rewrite !andb_true_iff, negb_true_iff in Hkeep.
    destruct Hkeep as ((Hx & Hy) & Hex).
    destruct (Hloc r Hr) as (l & Hl).
    destruct (mx r) as [x|] eqn:Hmx; [|discriminate].
    destruct (my r) as [y|] eqn:Hmy; [|discriminate].
    exists r, x, y, l. repeat split; try assumption.
    + intros Hin. exact (proj1 (excluded_false exclude r) Hex l Hin Hl).
    + now rewrite Hl.
  - intros (r & x & y & l & Hr & Hx & Hy & Hl & Hout & ->).
    exists r. split; [now rewrite Hx, Hy, Hl|].
    apply filter_In. split; [exact Hr|].
    rewrite Hx, Hy. simpl. apply negb_true_iff, excluded_false.
    intros name Hin Hname. apply Hout. congruence.
Qed.

(** ** KPI text *)

Lemma chars_app (s1 s2 : string) :
  chars (s1 ++ s2)%string = (chars s1 ++ chars s2)%list.
Proof.
  unfold chars. induction s1 as [|c s1 IH]; simpl; [reflexivity|].
  now rewrite IH.
Qed.

Lemma chars_of_list (l : list ascii) : chars (string_of_list_ascii l) = l.
Proof. apply list_ascii_of_string_of_list_ascii. Qed.

Lemma uint_digits (d : Decimal.uint) :
  Forall (fun c => is_digit c = true) (chars (NilEmpty.string_of_uint d)).
Proof. induction d; simpl; constructor; auto. Qed.

Lemma digits_are_digits (n : N) :
  Forall (fun c => is_digit c = true) (chars (digits n)).
Proof.
  unfold digits, NilZero.string_of_uint.
  destruct (N.to_uint n) eqn:Hd; try (rewrite <- Hd; apply uint_digits).
  repeat constructor.
Qed.

Lemma digits_nonempty (n : N) : chars (digits n) <> [].
Proof.
  unfold digits, NilZero.string_of_uint.
  destruct (N.to_uint n); simpl; discriminate.
Qed.

Lemma digit_not_comma (c : ascii) : is_digit c = true -> is_comma c = false.
Proof.
  unfold is_digit, is_comma. intros Hd.
  destruct (Ascii.eqb c ",") eqn:Hc; [|reflexivity].
  apply Ascii.eqb_eq in Hc. subst c. discriminate Hd.
Qed.

Lemma group3_ind (P : list ascii -> Prop) :
  (forall l, (List.length l <= 3)%nat -> P l) ->
  (forall a b c d t, P (d :: t) -> P (a :: b :: c :: d :: t)) ->
  forall l, P l.
Proof.
  intros Hshort Hstep l.
  assert (H : forall n l', (List.length l' <= n)%nat -> P l').
  { induction n as [|n IH]; intros l' Hlen.
    - apply Hshort. lia.
    - destruct l' as [|a [|b [|c [|d t]]]]; try (apply Hshort; simpl; lia).
      apply Hstep, IH. simpl in *. lia. }
  apply (H (List.length l)). lia.
Qed.

Lemma group3_short (l : list ascii) :
  (List.length l <= 3)%nat -> group3 l = l.
Proof.
  destruct l as [|a [|b [|c [|d t]]]]; try reflexivity. simpl. lia.
Qed.

Lemma group3_long (a b c d : ascii) (t : list ascii) :
  group3 (a :: b :: c :: d :: t) = a :: b :: c :: ","%char :: group3 (d :: t).
Proof. reflexivity. Qed.

(** Taking the commas out of a grouped number gives its digits back. *)
Lemma group3_without_commas (l : list ascii) :
  Forall (fun c => is_digit c = true) l ->
  filter (fun c => negb (is_comma c)) (group3 l) = l.
Proof.
  induction l as [l Hlen|a b c d t IH] using group3_ind; intros Hd.
  - rewrite group3_short by exact Hlen.
    apply filter_all. intros x Hx. rewrite Forall_forall in Hd.
    now rewrite (digit_not_comma x (Hd x Hx)).
  - rewrite group3_long.
    inversion Hd as [|? ? Ha Hd1]; subst.
    inversion Hd1 as [|? ? Hb Hd2]; subst.
    inversion Hd2 as [|? ? Hc Hd3]; subst.
    cbn [filter].
    rewrite (digit_not_comma a Ha), (digit_not_comma b Hb),
      (digit_not_comma c Hc).
    change (is_comma ",") with true. cbn [negb].
    now rewrite (IH Hd3).
Qed.

Lemma group3_grouped (l : list ascii) :
  l <> [] ->
  Forall (fun c => is_digit c = true) l ->
  thousands_grouped (group3 l).
Proof.
  induction l as [l Hlen|a b c d t IH] using group3_ind; intros Hne Hd.
  - rewrite group3_short by exact Hlen.
    destruct l as [|x [|y [|z [|w t]]]]; [now destruct Hne| | | |simpl in Hlen; lia].
    all: split; [simpl; discriminate|].
    all: intros i Hi; simpl in Hi.
    all: repeat (destruct i as [|i]; [simpl; inversion Hd; subst; auto;
                 repeat match goal with
                        | H : Forall _ (_ :: _) |- _ => inversion H; clear H; subst
                        end; assumption|]); lia.
  - rewrite group3_long.
    inversion Hd as [|? ? Ha Hd1]; subst.
    inversion Hd1 as [|? ? Hb Hd2]; subst.
    inversion Hd2 as [|? ? Hc Hd3]; subst.
    destruct (IH ltac:(discriminate) Hd3) as (Hlast & Hpos).
    assert (Hshift : forall j, ((4 + j) mod 4 = j mod 4)%nat).
    { intros j. replace (4 + j)%nat with (j + 1 * 4)%nat by lia.
      apply Nat.Div0.mod_add. }
    split.
    + change (List.length (a :: b :: c :: ","%char :: group3 (d :: t)))
        with (4 + List.length (group3 (d :: t)))%nat.
      now rewrite Hshift.
    + intros i Hi.
      destruct i as [|[|[|[|j]]]]; try assumption; try reflexivity.
      change (S (S (S (S j)))) with (4 + j)%nat. rewrite Hshift.
      change (nth (4 + j) (a :: b :: c :: ","%char :: group3 (d :: t)) "0"%char)
        with (nth j (group3 (d :: t)) "0"%char).
      apply Hpos. cbn [List.length] in Hi. lia.
Qed.

(** [round_half_even] is within a half of its argument, and at exactly a
    half it is even. *)
Lemma round_half_even_nearest (q : Q) :
  (inject_Z (round_half_even q) - (1 # 2) <= q
   /\ q <= inject_Z (round_half_even q) + (1 # 2))%Q
  /\ ((q == inject_Z (round_half_even q) + (1 # 2)
       \/ q == inject_Z (round_half_even q) - (1 # 2))%Q ->
      Z.even (round_half_even q) = true).
Proof.
  unfold round_half_even.
  assert (Hlo := Qfloor_le q). assert (Hhi := Qlt_floor q).
  rewrite inject_Z_plus in Hhi. change (inject_Z 1) with 1%Q in Hhi.
  destruct (Qcompare_spec (q - inject_Z (Qfloor q)) (1 # 2)) as [He|Hl|Hg].
  - destruct (Z.even (Qfloor q)) eqn:Heven.
    + split; [split; lra|]. intros _. exact Heven.
    + rewrite inject_Z_plus. change (inject_Z 1) with 1%Q.
      split; [split; lra|]. intros _.
      rewrite Z.add_1_r, Z.even_succ, <- Z.negb_even, Heven. reflexivity.
  - split; [split; lra|]. intros [H|H]; lra.
  - rewrite inject_Z_plus. change (inject_Z 1) with 1%Q.
    split; [split; lra|]. intros [H|H]; lra.
Qed.

Lemma one_digit (n : N) :
  (n < 10)%N -> exists d, is_digit d = true /\ digits n = String d "".
Proof.
  intros Hn.
  destruct n as [|p]; [|repeat (destruct p as [p|p|]; try lia)];
    eexists; (split; [|reflexivity]); reflexivity.
Qed.

(** [int] cuts the fraction off: down for a positive value, up for a
    negative one. *)
Lemma py_int_truncates (q : Q) :
  ((0 <= q)%Q -> py_int q = Qfloor q)
  /\ ((q <= 0)%Q -> py_int q = Qceiling q).
Proof.
  destruct q as [n d]. unfold py_int, Qceiling, Qfloor, Qle. simpl.
  rewrite !Z.mul_1_r. split; intros Hn.
  - apply Z.quot_div_nonneg; lia.
  - rewrite <- (Z.opp_involutive n) at 1.
    rewrite Z.quot_opp_l by lia. f_equal.
    apply Z.quot_div_nonneg; lia.
Qed.

Lemma chars_minus_if_no_comma (negative : bool) :
  filter (fun c => negb (is_comma c)) (chars (minus_if negative))
  = chars (minus_if negative).
Proof. now destruct negative. Qed.

(** C8.  A count is shown as the digits of its integer part, grouped by
    three from the right with commas (1234567 gives "1,234,567"); a rate
    is shown with one digit after the point, which is the number of tenths
    nearest to the value, the even one of two equally near (87.25 gives
    "87.2"); a missing value of either kind is shown as "N/A". *)
Theorem format_metric_correct :
  formatMetric (Some (1234567 # 1)) integer = "1,234,567"
  /\ formatMetric (Some (8725 # 100)) percentage = "87.2"
  /\ (forall kind, formatMetric None kind = "N/A")
  /\ (forall q,
        chars (formatMetric (Some q) integer)
        = (chars (minus_if (py_int q <? 0)%Z)
           ++ rev (group3 (rev (chars (digits (Z.abs_N (py_int q)))))))%list
        /\ thousands_grouped
             (group3 (rev (chars (digits (Z.abs_N (py_int q))))))
        /\ without_commas (formatMetric (Some q) integer)
           = chars (plain_int (py_int q)))
  /\ (forall q,
        exists d,
          is_digit d = true
          /\ digits (Z.abs_N (tenths q) mod 10) = String d ""
          /\ formatMetric (Some q) percentage
             = (minus_if (Qnum q <? 0)%Z
                ++ digits (Z.abs_N (tenths q) / 10) ++ "." ++ String d "")%string
          /\ (inject_Z (tenths q) - (1 # 2) <= q * inject_Z 10
              /\ q * inject_Z 10 <= inject_Z (tenths q) + (1 # 2))%Q
          /\ ((q * inject_Z 10 == inject_Z (tenths q) + (1 # 2)
               \/ q * inject_Z 10 == inject_Z (tenths q) - (1 # 2))%Q ->
              Z.even (tenths q) = true)).
Proof.
  split; [reflexivity|]. split; [reflexivity|].
  split; [intros []; reflexivity|]. split.
  - intros q. cbn [formatMetric]. unfold format_thousands.
    set (z := py_int q). set (ds := chars (digits (Z.abs_N z))).
    assert (Hds : Forall (fun c => is_digit c = true) (rev ds)).
    { apply Forall_rev, digits_are_digits. }
    assert (Htext : chars (minus_if (z <? 0)%Z
                           ++ string_of_list_ascii
                                (rev (group3 (rev (list_ascii_of_string
                                                     (digits (Z.abs_N z)))))))%string
                    = (chars (minus_if (z <? 0)%Z)
                       ++ rev (group3 (rev ds)))%list).
    { now rewrite chars_app, chars_of_list. }
    split; [exact Htext|]. split.
    + apply group3_grouped; [|exact Hds].
      intros Hnil. apply (digits_nonempty (Z.abs_N z)).
      fold ds. rewrite <- (rev_involutive ds), Hnil. reflexivity.
    + unfold without_commas. rewrite Htext, filter_app.
      rewrite chars_minus_if_no_comma, filter_rev.
      rewrite group3_without_commas by exact Hds.
      rewrite rev_involutive. unfold plain_int. now rewrite chars_app.
  - intros q. cbn [formatMetric]. unfold format_1f.
    destruct (one_digit (Z.abs_N (tenths q) mod 10)) as (d & Hd & Hdigit).
    { apply N.mod_lt. discriminate. }
    exists d. split; [exact Hd|]. split; [exact Hdigit|].
    split; [now rewrite Hdigit|].
    unfold tenths. apply round_half_even_nearest.
Qed.

(** ** The country list *)

Lemma ascii_compare_trans_le (a b c : ascii) :
  Ascii.compare a b <> Gt -> Ascii.compare b c <> Gt ->
  Ascii.compare a c <> Gt.
Proof.
  unfold Ascii.compare. rewrite !N.compare_le_iff. lia.
Qed.

Lemma string_compare_refl (s : string) : String.compare s s = Eq.
Proof.
  induction s as [|c s IH]; [reflexivity|]. simpl.
  unfold Ascii.compare. now rewrite N.compare_refl.
Qed.

Lemma string_leb_trans : transitive_order String.leb.
Proof.
  intros s1. unfold String.leb.
  induction s1 as [|a s1 IH]; intros [|b s2] [|c s3]; simpl; try easy.
  destruct (Ascii.compare a b) eqn:Hab; try easy;
    destruct (Ascii.compare b c) eqn:Hbc; try easy.
  - apply Ascii.compare_eq_iff in Hab, Hbc. subst.
    unfold Ascii.compare. rewrite N.compare_refl. apply IH.
  - apply Ascii.compare_eq_iff in Hab. subst. now rewrite Hbc.
  - apply Ascii.compare_eq_iff in Hbc. subst. now rewrite Hab.
  - intros _ _.
    assert (Hac : Ascii.compare a c = Lt).
    { unfold Ascii.compare in *. rewrite N.compare_lt_iff in *. lia. }
    now rewrite Hac.
Qed.

Lemma string_leb_total : total_order String.leb.
Proof. intros a b. apply String.leb_total. Qed.

Lemma unique_In (values : list string) (x : string) :
  In x (unique values) <-> In x values.
Proof.
  induction values as [|y rest IH]; simpl; [reflexivity|].
  rewrite filter_In, IH, negb_true_iff, String.eqb_neq.
  destruct (string_dec y x) as [->|Hne]; [tauto|].
  split; [tauto|]. intros [H|H]; [tauto|]. right. split; [exact H|congruence].
Qed.

Lemma unique_NoDup (values : list string) : NoDup (unique values).
Proof.
  induction values as [|y rest IH]; simpl; constructor.
  - rewrite filter_In, negb_true_iff, String.eqb_neq. tauto.
  - now apply NoDup_filter.
Qed.

Lemma location_dropna_In (df : DataFrame) (name : string) :
  In name (location_dropna df) <-> exists r, In r df /\ location r = Some name.
Proof.
  unfold location_dropna. rewrite in_flat_map. split.
  - intros (r & Hr & Hl). exists r. split; [exact Hr|].
    destruct (location r) as [l|]; [|contradiction].
    destruct Hl as [->|[]]. reflexivity.
  - intros (r & Hr & Hl). exists r. split; [exact Hr|]. rewrite Hl. now left.
Qed.

Lemma countries_In (df : DataFrame) (name : string) :
  In name (countries df) <-> exists r, In r df /\ location r = Some name.
Proof.
  rewrite <- location_dropna_In, <- (unique_In (location_dropna df)).
  unfold countries. split; apply Permutation_in.
  - apply Permutation_sym, insertion_sort_perm.
  - apply insertion_sort_perm.
Qed.

Lemma countries_NoDup (df : DataFrame) : NoDup (countries df).
Proof.
  unfold countries. eapply Permutation_NoDup;
    [apply insertion_sort_perm|apply unique_NoDup].
Qed.

(** In a list without repetition, ascending means strictly ascending. *)
Lemma ascending_strict (l : list string) :
  NoDup l ->
  StronglySorted (fun a b => String.leb a b = true) l ->
  StronglySorted (fun a b => String.ltb a b = true) l.
Proof.
  intros Hnd Hs. induction Hs as [|a l Hs IH Ha]; constructor.
  - apply IH. now inversion Hnd.
  - inversion Hnd as [|? ? Hout _]; subst.
    rewrite Forall_forall in *. intros b Hb.
    assert (Hle := Ha b Hb). unfold String.leb, String.ltb in *.
    destruct (String.compare a b) eqn:Hc; try easy.
    apply String.compare_eq_iff in Hc. subst. contradiction.
Qed.

(** X1.  The country list holds the locations that occur in the data set,
    each once, in strictly ascending order; rows without a location add
    nothing to it. *)
Theorem countries_sorted_distinct (df : DataFrame) :
  (forall name, In name (countries df)
                <-> exists r, In r df /\ location r = Some name)
  /\ NoDup (countries df)
  /\ StronglySorted (fun a b => String.ltb a b = true) (countries df).
Proof.
  split; [apply countries_In|]. split; [apply countries_NoDup|].
  apply ascending_strict; [apply countries_NoDup|].
  apply (insertion_sort_lawful string String.leb
           string_leb_total string_leb_trans).
Qed.

(** ** The preselected country *)

Lemma contains_In (x : string) (l : list string) :
  contains x l = true <-> In x l.
Proof.
  unfold contains. rewrite existsb_exists. split.
  - intros (y & Hy & Heq). apply String.eqb_eq in Heq. now subst.
  - intros Hx. exists x. split; [exact Hx|apply String.eqb_refl].
Qed.

(** [index] finds the first place of a value that is in the list. *)
Lemma index_found (x : string) (l : list string) :
  In x l ->
  exists i, index x l = Ok i
            /\ nth_error l i = Some x
            /\ forall j, (j < i)%nat -> nth_error l j <> Some x.
Proof.
  induction l as [|y rest IH]; intros Hx; [contradiction|]. simpl.
  destruct (String.eqb y x) eqn:Hy.
  - apply String.eqb_eq in Hy. subst. exists 0%nat.
    repeat split. intros j Hj. lia.
  - apply String.eqb_neq in Hy.
    destruct IH as (i & Hi & Hnth & Hfirst); [destruct Hx; congruence|].
    exists (S i). rewrite Hi. repeat split; [exact Hnth|].
    intros [|j] Hj; simpl; [congruence|]. apply Hfirst. lia.
Qed.

Lemma index_missing (x : string) (l : list string) :
  ~ In x l -> index x l = Raise (ValueError ("'" ++ x ++ "' is not in list")).
Proof.
  induction l as [|y rest IH]; intros Hx; [reflexivity|]. simpl.
  destruct (String.eqb y x) eqn:Hy.
  - apply String.eqb_eq in Hy. subst. destruct Hx. now left.
  - rewrite IH; [reflexivity|]. intros H. apply Hx. now right.
Qed.

(** X2.  The preselected index never raises.  It is the place of "India"
    in the country list when a row of the data set has that location, and
    0, the first country in order, when none has; with a country to choose
    from it is a valid index. *)
Theorem default_index_points_at_india (df : DataFrame) :
  exists i,
    default_index (countries df) = Ok i
    /\ ((exists r, In r df /\ location r = Some "India") ->
        nth_error (countries df) i = Some "India")
    /\ ((forall r, In r df -> location r <> Some "India") -> i = 0%nat)
    /\ (countries df <> [] -> (i < List.length (countries df))%nat).
Proof.
  unfold default_index.
  destruct (contains "India" (countries df)) eqn:Hc.
  - apply contains_In in Hc.
    destruct (index_found "India" (countries df) Hc) as (i & Hi & Hnth & _).
    exists i. split; [exact Hi|]. split; [now intros _|]. split.
    + intros Hnone. apply countries_In in Hc. destruct Hc as (r & Hr & Hl).
      now destruct (Hnone r Hr).
    + intros _. apply nth_error_Some. congruence.
  - exists 0%nat. split; [reflexivity|].
    apply not_true_iff_false in Hc. rewrite contains_In, countries_In in Hc.
    split; [intros H; now destruct Hc|]. split; [reflexivity|].
    intros Hne. destruct (countries df); [now destruct Hne|simpl; lia].
Qed.

(** ** The date bounds *)

Lemma dt_date_monotone (t1 t2 : Timestamp) :
  (t1 <= t2)%Z -> (dt_date t1 <= dt_date t2)%Z.
Proof.
  intros Hle. unfold dt_date.
  apply Z.add_le_mono_l, Z.div_le_mono; [reflexivity|exact Hle].
Qed.

Lemma fold_min_least (t : Z) (ts : list Z) :
  In (fold_right Z.min t ts) (t :: ts)
  /\ forall x, In x (t :: ts) -> (fold_right Z.min t ts <= x)%Z.
Proof.
  induction ts as [|u ts (IHin & IHle)]; simpl.
  - split; [now left|]. intros x [<-|[]]. lia.
  - split.
    + destruct (Z.min_spec u (fold_right Z.min t ts)) as [(_ & ->)|(_ & ->)].
      * right. now left.
      * destruct IHin as [H|H]; [now left|right; now right].
    + intros x [<-|[<-|Hx]].
      * specialize (IHle t (or_introl eq_refl)). lia.
      * lia.
      * specialize (IHle x (or_intror Hx)). lia.
Qed.

Lemma fold_max_greatest (t : Z) (ts : list Z) :
  In (fold_right Z.max t ts) (t :: ts)
  /\ forall x, In x (t :: ts) -> (x <= fold_right Z.max t ts)%Z.
Proof.
  induction ts as [|u ts (IHin & IHle)]; simpl.
  - split; [now left|]. intros x [<-|[]]. lia.
  - split.
    + destruct (Z.max_spec u (fold_right Z.max t ts)) as [(_ & ->)|(_ & ->)].
      * destruct IHin as [H|H]; [now left|right; now right].
      * right. now left.
    + intros x [<-|[<-|Hx]].
      * specialize (IHle t (or_introl eq_refl)). lia.
      * lia.
      * specialize (IHle x (or_intror Hx)). lia.
Qed.

(** What the two bounds are, when the frame lets them be computed. *)
Lemma date_bounds_hold (df : DataFrame) (lo hi : CalDate) :
  min_date df = Some lo -> max_date df = Some hi ->
  (forall r, In r df -> (lo <= dt_date (date r) <= hi)%Z)
  /\ (exists r, In r df /\ dt_date (date r) = lo)
  /\ (exists r, In r df /\ dt_date (date r) = hi).
Proof.
  unfold min_date, max_date, date_min, date_max.
  destruct (map date df) as [|t ts] eqn:Hdates; [discriminate|].
  simpl. intros [= <-] [= <-].
  destruct (fold_min_least t ts) as (Hmin_in & Hmin).
  destruct (fold_max_greatest t ts) as (Hmax_in & Hmax).
  assert (Hsame : forall x : Z, In x (t :: ts) <-> In x (map date df)).
  { intros x. now rewrite Hdates. }
  apply Hsame in Hmin_in, Hmax_in.
  split; [|split].
  - intros r Hr.
    assert (Hd : In (date r) (t :: ts)).
    { apply Hsame. now apply in_map. }
    split; apply dt_date_monotone; [now apply Hmin|now apply Hmax].
  - apply in_map_iff in Hmin_in. destruct Hmin_in as (r & Heq & Hr).
    exists r. split; [exact Hr|now rewrite Heq].
  - apply in_map_iff in Hmax_in. destruct Hmax_in as (r & Heq & Hr).
    exists r. split; [exact Hr|now rewrite Heq].
Qed.

(** X3.  On a frame with at least one row the two bounds exist, every row
    is dated between them, and each bound is the date of some row. *)
Theorem date_bounds (df : DataFrame) :
  df <> [] ->
  exists lo hi,
    min_date df = Some lo /\ max_date df = Some hi
    /\ (forall r, In r df -> (lo <= dt_date (date r) <= hi)%Z)
    /\ (exists r, In r df /\ dt_date (date r) = lo)
    /\ (exists r, In r df /\ dt_date (date r) = hi).
Proof.
  intros Hne.
  assert (Hboth : exists lo hi, min_date df = Some lo /\ max_date df = Some hi).
  { unfold min_date, max_date, date_min, date_max.
    destruct df as [|r df]; [now destruct Hne|]. simpl. eauto. }
  destruct Hboth as (lo & hi & Hlo & Hhi).
  exists lo, hi. split; [exact Hlo|]. split; [exact Hhi|].
  exact (date_bounds_hold df lo hi Hlo Hhi).
Qed.

Lemma date_bounds_witness :
  mixed_days <> []
  /\ exists lo hi,
       min_date mixed_days = Some lo /\ max_date mixed_days = Some hi
       /\ (forall r, In r mixed_days -> (lo <= dt_date (date r) <= hi)%Z)
       /\ (exists r, In r mixed_days /\ dt_date (date r) = lo)
       /\ (exists r, In r mixed_days /\ dt_date (date r) = hi).
Proof.
  assert (Hne : mixed_days <> []) by discriminate.
  split; [exact Hne|]. exact (date_bounds mixed_days Hne).
Defined.

(** X4.  With the two bounds as the range, which is what the date control
    starts from, the filter by date lets every row pass: the view is the
    selected country's rows, all of them. *)
Theorem default_range_keeps_country (df : DataFrame) (c : string)
    (lo hi : CalDate) :
  min_date df = Some lo -> max_date df = Some hi ->
  filtered_df df c lo hi = get_group c df.
Proof.
  intros Hlo Hhi.
  destruct (date_bounds_hold df lo hi Hlo Hhi) as (Hall & _).
  unfold filtered_df, get_group. apply filter_ext_in. intros r Hr.
  destruct (Hall r Hr) as (H1 & H2).
  apply Z.leb_le in H1, H2. rewrite H1, H2. now rewrite !andb_true_r.
Qed.

Lemma default_range_keeps_country_witness :
  filtered_df mixed_days "India" (epoch_ordinal + 1)%Z (epoch_ordinal + 5)%Z
  = get_group "India" mixed_days.
Proof.
  exact (default_range_keeps_country mixed_days "India"
           (epoch_ordinal + 1)%Z (epoch_ordinal + 5)%Z eq_refl eq_refl).
Defined.

(** ** Narrowing the view *)

(** X5.  The view keeps rows of the data set in their order, and
    filtering a view again with a range inside the first one gives what
    the narrower range gives on the data set. *)
Theorem narrowing_composes (df : DataFrame) (c : string)
    (s e s' e' : CalDate) :
  (s <= s')%Z -> (e' <= e)%Z ->
  subseq (filtered_df df c s e) df
  /\ filtered_df (filtered_df df c s e) c s' e' = filtered_df df c s' e'.
Proof.
  intros Hs He. split; [apply subseq_filter_l|].
  unfold filtered_df. induction df as [|r df IH]; [reflexivity|]. simpl.
  destruct (loc_eq c r) eqn:Hloc; simpl; [|exact IH].
  destruct (s <=? dt_date (date r))%Z eqn:H1;
    destruct (dt_date (date r) <=? e)%Z eqn:H2; simpl;
    rewrite ?Hloc; simpl.
  - now rewrite IH.
  - rewrite IH. apply Z.leb_gt in H2.
    replace (dt_date (date r) <=? e')%Z with false
      by (symmetry; apply Z.leb_gt; lia).
    now rewrite andb_false_r.
  - rewrite IH. apply Z.leb_gt in H1.
    replace (s' <=? dt_date (date r))%Z with false
      by (symmetry; apply Z.leb_gt; lia).
    reflexivity.
  - rewrite IH. apply Z.leb_gt in H1.
    replace (s' <=? dt_date (date r))%Z with false
      by (symmetry; apply Z.leb_gt; lia).
    reflexivity.
Qed.

Lemma narrowing_composes_witness :
  filtered_df
    (filtered_df mixed_days "India" (epoch_ordinal + 1)%Z (epoch_ordinal + 5)%Z)
    "India" (epoch_ordinal + 2)%Z (epoch_ordinal + 2)%Z
  = filtered_df mixed_days "India" (epoch_ordinal + 2)%Z (epoch_ordinal + 2)%Z.
Proof.
  refine (proj2 (narrowing_composes mixed_days "India"
                   (epoch_ordinal + 1)%Z (epoch_ordinal + 5)%Z
                   (epoch_ordinal + 2)%Z (epoch_ordinal + 2)%Z _ _));
    unfold epoch_ordinal; lia.
Defined.

(** ** The row behind the KPIs *)

Lemma iloc_last_snoc (l : DataFrame) (r : Row) : iloc_last (l ++ [r]) = Ok r.
Proof. unfold iloc_last. now rewrite rev_app_distr. Qed.

(** The last row of a frame sorted by date: a row of the frame, and none
    is dated later. *)
Lemma latest_found (K : SortKind) (view : DataFrame) :
  lawful K -> view <> [] ->
  exists row,
    latest K view = Ok row
    /\ In row view
    /\ forall r, In r view -> (date r <= date row)%Z.
Proof.
  intros HK Hne.
  assert (Hperm := sort_values_date_perm K HK view).
  assert (Hsorted := sort_values_date_sorted K HK view).
  unfold latest.
  destruct (sort_values_date K view) as [|first rest] eqn:Hs.
  - apply Permutation_sym, Permutation_nil in Hperm. now destruct Hne.
  - destruct (exists_last (l := first :: rest)) as (l & row & Heq);
      [discriminate|].
    rewrite Heq in *. exists row. split; [apply iloc_last_snoc|]. split.
    + apply (Permutation_in _ (Permutation_sym Hperm)), in_or_app.
      right. now left.
    + intros r Hr.
      apply (StronglySorted_last by_date l row);
        [intros a; unfold by_date; lia|exact Hsorted|].
      now apply (Permutation_in _ Hperm).
Qed.

(** X6.  The KPIs are read from a row of the view than which no row of
    the view is dated later; on a view without rows there is no such row
    and [iloc[-1]] raises [IndexError]. *)
Theorem latest_is_newest (K : SortKind) (view : DataFrame) :
  lawful K ->
  (view = [] -> exists e, latest K view = Raise e
                          /\ exc_class e = "IndexError")
  /\ (view <> [] ->
      exists row,
        latest K view = Ok row
        /\ In row view
        /\ forall r, In r view -> (date r <= date row)%Z).
Proof.
  intros HK. split.
  - intros ->. unfold latest.
    assert (Hperm := sort_values_date_perm K HK []).
    apply Permutation_nil in Hperm. rewrite Hperm.
    eexists. split; reflexivity.
  - now apply latest_found.
Qed.

Lemma latest_is_newest_witness :
  lawful insertion_sort
  /\ latest insertion_sort (get_group "India" mixed_days)
     = Ok (sample_row "India" 2 (Some (12 # 1)) None (Some (40 # 1)))
  /\ exists row,
       latest insertion_sort (get_group "India" mixed_days) = Ok row
       /\ In row (get_group "India" mixed_days)
       /\ forall r, In r (get_group "India" mixed_days) ->
                    (date r <= date row)%Z.
Proof.
  split; [exact insertion_sort_lawful|]. split; [reflexivity|].
  apply (proj2 (latest_is_newest insertion_sort (get_group "India" mixed_days)
                  insertion_sort_lawful)).
  discriminate.
Defined.

(** ** Lines 54 to 66 *)


Lemma latest_of_view_cases (K : SortKind) (df : DataFrame) (c : string)
    (range : DateInput) :
  lawful K ->
  match unpack_date_range range with
  | Raise e => latest_of_view K df c range = Raise e
  | Ok (s, e) =>
      (filtered_df df c s e = [] /\ latest_of_view K df c range = Ok None)
      \/ exists row,
           filtered_df df c s e <> []
           /\ latest K (filtered_df df c s e) = Ok row
           /\ latest_of_view K df c range = Ok (Some row)
           /\ In row (filtered_df df c s e)
           /\ forall r, In r (filtered_df df c s e) -> (date r <= date row)%Z
  end.
Proof.
  intros HK. unfold latest_of_view.
  destruct (unpack_date_range range) as [[s e]|err]; [|reflexivity].
  cbn [bind fst snd].
  destruct (filtered_df df c s e) as [|r view] eqn:Hview; [left; now split|].
  right.
  destruct (latest_found K (r :: view) HK) as (row & Hrow & Hin & Hmax);
    [discriminate|].
  exists row. cbn [empty]. rewrite Hrow.
  repeat split; [discriminate|exact Hin|exact Hmax].
Qed.

(** X7.  On the first render, with a country of the list selected and the
    two date bounds as the range, the view has rows, so the script passes
    the guard of line 62 instead of stopping at the warning, and the row
    the KPIs are read from is the selected country's newest row in the
    whole data set. *)
Theorem defaults_reach_latest (K : SortKind) (df : DataFrame) (c : string)
    (lo hi : CalDate) :
  lawful K ->
  In c (countries df) ->
  min_date df = Some lo -> max_date df = Some hi ->
  exists row,
    latest_of_view K df c (date_tuple [lo; hi]) = Ok (Some row)
    /\ empty (filtered_df df c lo hi) = false
    /\ In row df
    /\ location row = Some c
    /\ forall r, In r df -> location r = Some c -> (date r <= date row)%Z.
Proof.
  intros HK Hc Hlo Hhi.
  destruct (date_bounds_hold df lo hi Hlo Hhi) as (Hall & _).
  assert (Hview : forall r, In r df -> location r = Some c ->
                            In r (filtered_df df c lo hi)).
  { intros r Hr Hl. apply filtered_df_In. repeat split; try assumption;
      now apply Hall. }
  apply countries_In in Hc. destruct Hc as (r0 & Hr0 & Hl0).
  assert (H := latest_of_view_cases K df c (date_tuple [lo; hi]) HK).
  cbn [unpack_date_range] in H.
  destruct H as [(Hnil & _)|(row & Hne & _ & Hrun & Hin & Hmax)].
  - specialize (Hview r0 Hr0 Hl0). now rewrite Hnil in Hview.
  - exists row. split; [exact Hrun|]. split.
    + destruct (filtered_df df c lo hi); [now destruct Hne|reflexivity].
    + apply filtered_df_In in Hin. destruct Hin as (Hin & Hloc & _).
      repeat split; try assumption.
      intros r Hr Hl. apply Hmax. now apply Hview.
Qed.

Lemma defaults_reach_latest_witness :
  lawful insertion_sort
  /\ In "India" (countries mixed_days)
  /\ latest_of_view insertion_sort mixed_days "India"
       (date_tuple [(epoch_ordinal + 1)%Z; (epoch_ordinal + 5)%Z])
     = Ok (Some (sample_row "India" 2 (Some (12 # 1)) None (Some (40 # 1))))
  /\ exists row,
       latest_of_view insertion_sort mixed_days "India"
         (date_tuple [(epoch_ordinal + 1)%Z; (epoch_ordinal + 5)%Z])
       = Ok (Some row)
       /\ empty (filtered_df mixed_days "India" (epoch_ordinal + 1)%Z
                   (epoch_ordinal + 5)%Z) = false
       /\ In row mixed_days
       /\ location row = Some "India"
       /\ forall r, In r mixed_days -> location r = Some "India" ->
                    (date r <= date row)%Z.
Proof.
  assert (Hin : In "India" (countries mixed_days)) by (right; now left).
  split; [exact insertion_sort_lawful|]. split; [exact Hin|].
  split; [reflexivity|].
  exact (defaults_reach_latest insertion_sort mixed_days "India"
           (epoch_ordinal + 1)%Z (epoch_ordinal + 5)%Z
           insertion_sort_lawful Hin eq_refl eq_refl).
Defined.



(** ** What loading can return *)

(** X9.  [load_data] returns the first candidate's frame when that one
    loads, whatever the second would do, and the second's only after the
    first has failed.  When it raises, it raises [RuntimeError], both
    candidates have failed, and no exception of a library call gets out as
    it is. *)
Theorem load_data_outcomes (env : Env) :
  (forall df,
      load_data env = Ok df
      <-> fetch env (nth 0 urls "") = Ok df
          \/ ((exists e, fetch env (nth 0 urls "") = Raise e)
              /\ fetch env (nth 1 urls "") = Ok df))
  /\ (forall e,
        load_data env = Raise e ->
        exc_class e = "RuntimeError"
        /\ (exists e0, fetch env (nth 0 urls "") = Raise e0)
        /\ exists e1, fetch env (nth 1 urls "") = Raise e1
                      /\ exc_str e
                         = ("Failed to download dataset. Last error: "
                            ++ exc_str e1)%string).
Proof.
  unfold load_data, urls. simpl.
  destruct (fetch env _) as [df0|e0] eqn:H0 at 1.
  - rewrite H0. split.
    + intros df. split.
      * intros [= ->]. now left.
      * intros [[= ->]|((e & He) & _)]; [reflexivity|discriminate He].
    + intros e [=].
  - rewrite H0.
    destruct (fetch env _) as [df1|e1] eqn:H1 at 1.
    + rewrite H1. split.
      * intros df. split.
        -- intros [= ->]. right. split; [now exists e0|reflexivity].
        -- intros [[=]|(_ & [= ->])]. reflexivity.
      * intros e [=].
    + rewrite H1. split.
      * intros df. split; [discriminate|]. intros [[=]|(_ & [=])].
      * intros e [= <-]. split; [reflexivity|].
        split; [now exists e0|]. now exists e1.
Qed.

(** ** The snapshot and the country list *)

(** An ordered list is determined by its elements when no two different
    ones are each below the other. *)
Lemma ordered_rearrangement_unique {A : Type} (R : A -> A -> Prop)
    (l1 l2 : list A) :
  StronglySorted R l1 -> StronglySorted R l2 -> Permutation l1 l2 ->
  (forall a b, In a l1 -> In b l1 -> R a b -> R b a -> a = b) ->
  l1 = l2.
Proof.
  intros Hs1. revert l2.
  induction Hs1 as [|a t1 Hs1 IH Ha]; intros l2 Hs2 Hperm Hanti.
  - now apply Permutation_nil in Hperm.
  - destruct l2 as [|b t2].
    { apply Permutation_sym, Permutation_nil in Hperm. discriminate. }
    apply StronglySorted_inv in Hs2. destruct Hs2 as (Hs2 & Hb).
    rewrite Forall_forall in Ha, Hb.
    assert (Hab : a = b).
    { assert (Ha2 : In a (b :: t2)).
      { apply (Permutation_in _ Hperm). now left. }
      assert (Hb1 : In b (a :: t1)).
      { apply (Permutation_in _ (Permutation_sym Hperm)). now left. }
      destruct Ha2 as [Heq|Ha2]; [now symmetry|].
      destruct Hb1 as [Heq|Hb1]; [exact Heq|].
      apply Hanti; [now left|now right|now apply Ha|now apply Hb]. }
    subst b. f_equal. apply IH; [exact Hs2| |].
    + now apply Permutation_cons_inv in Hperm.
    + intros x y Hx Hy. apply Hanti; now right.
Qed.

Lemma group_keys_sorted (df : DataFrame) :
  StronglySorted (fun a b => String.leb a b = true) (group_keys df).
Proof.
  unfold group_keys.
  apply (insertion_sort_lawful string String.leb
           string_leb_total string_leb_trans).
Qed.

(** The group keys of the snapshot are the country list. *)
Lemma group_keys_countries (df : DataFrame) : group_keys df = countries df.
Proof.
  apply (ordered_rearrangement_unique (fun a b => String.leb a b = true)).
  - apply group_keys_sorted.
  - apply (insertion_sort_lawful string String.leb
             string_leb_total string_leb_trans).
  - apply NoDup_Permutation;
      [apply group_keys_NoDup|apply countries_NoDup|].
    intros name. now rewrite group_keys_In, countries_In.
  - intros a b _ _. apply String.leb_antisym.
Qed.

Lemma group_nonempty (K : SortKind) (df : DataFrame) (name : string) :
  lawful K -> In name (group_keys df) ->
  get_group name (sort_values_date K df) <> [].
Proof.
  intros HK Hname Hnil. apply group_keys_In in Hname.
  destruct Hname as (r & Hr & Hl).
  assert (Hin : In r (get_group name (sort_values_date K df))).
  { apply get_group_In. split; [|exact Hl].
    now apply (Permutation_in _ (sort_values_date_perm K HK df)). }
  now rewrite Hnil in Hin.
Qed.

Lemma locations_of_groups (sorted : DataFrame) (keys : list string) :
  (forall k, In k keys -> get_group k sorted <> []) ->
  map location (flat_map (last_of_group sorted) keys) = map Some keys.
Proof.
  induction keys as [|k keys IH]; intros Hne; [reflexivity|].
  simpl. rewrite map_app, IH by (intros k' Hk'; apply Hne; now right).
  unfold last_of_group.
  destruct (get_group k sorted) eqn:Hg; [now destruct (Hne k (or_introl eq_refl))|].
  reflexivity.
Qed.

(** X10.  The snapshot has one row for each country of the list, in the
    order of the list, so as many rows as there are countries to select
    and none for rows without a location. *)
Theorem snapshot_follows_countries (K : SortKind) (df : DataFrame) :
  lawful K ->
  map location (latest_all K df) = map Some (countries df)
  /\ List.length (latest_all K df) = List.length (countries df).
Proof.
  intros HK.
  assert (Hloc : map location (latest_all K df) = map Some (countries df)).
  { unfold latest_all. rewrite <- group_keys_countries.
    apply locations_of_groups. intros k Hk. now apply group_nonempty. }
  split; [exact Hloc|].
  rewrite <- (length_map location), Hloc. apply length_map.
Qed.

Lemma snapshot_follows_countries_witness :
  lawful insertion_sort
  /\ map location (latest_all insertion_sort mixed_days)
     = [Some "Atlantis"; Some "India"]
  /\ map location (latest_all insertion_sort mixed_days)
     = map Some (countries mixed_days).
Proof.
  split; [exact insertion_sort_lawful|]. split; [reflexivity|].
  exact (proj1 (snapshot_follows_countries insertion_sort mixed_days
                  insertion_sort_lawful)).
Defined.

(** ** The part of the sorting algorithm *)

Lemma group_determined (K1 K2 : SortKind) (df : DataFrame) (name : string) :
  lawful K1 -> lawful K2 -> one_row_per_day df ->
  get_group name (sort_values_date K1 df)
  = get_group name (sort_values_date K2 df).
Proof.
  intros H1 H2 Hone.
  destruct (get_group_sorted K1 H1 df name) as (Hp1 & Hs1).
  destruct (get_group_sorted K2 H2 df name) as (Hp2 & Hs2).
  apply (ordered_rearrangement_unique by_date); try assumption.
  - now rewrite <- Hp1.
  - intros a b Ha Hb Hab Hba.
    apply (Permutation_in _ (Permutation_sym Hp1)), get_group_In in Ha, Hb.
    destruct Ha as (Ha & Hla), Hb as (Hb & Hlb).
    apply Hone; try assumption; [congruence|unfold by_date in *; lia].
Qed.

(** X11.  When no two different rows share location and date, neither the
    snapshot nor the row behind the KPIs depends on how [sort_values]
    orders rows of equal date: every sorting algorithm gives the same. *)
Theorem snapshot_independent_of_sort (K1 K2 : SortKind) (df : DataFrame) :
  lawful K1 -> lawful K2 -> one_row_per_day df ->
  latest_all K1 df = latest_all K2 df
  /\ forall c s e,
       latest K1 (filtered_df df c s e) = latest K2 (filtered_df df c s e).
Proof.
  intros H1 H2 Hone. split.
  - unfold latest_all. apply flat_map_ext. intros name.
    unfold last_of_group. now rewrite (group_determined K1 K2 df name).
  - intros c s e. unfold latest. f_equal.
    set (view := filtered_df df c s e).
    apply (ordered_rearrangement_unique by_date).
    + now apply sort_values_date_sorted.
    + now apply sort_values_date_sorted.
    + rewrite <- (sort_values_date_perm K1 H1 view).
      now apply sort_values_date_perm.
    + intros a b Ha Hb Hab Hba.
      apply (Permutation_in _ (Permutation_sym (sort_values_date_perm K1 H1 view)))
        in Ha, Hb.
      apply filtered_df_In in Ha, Hb.
      destruct Ha as (Ha & Hla & _), Hb as (Hb & Hlb & _).
      apply Hone; try assumption; [congruence|unfold by_date in *; lia].
Qed.

Lemma two_days_one_row_per_day : one_row_per_day two_days.
Proof.
  intros a b [<-|[<-|[]]] [<-|[<-|[]]] _ Hd; try reflexivity; discriminate Hd.
Qed.

Lemma snapshot_independent_of_sort_witness :
  lawful insertion_sort /\ lawful backward_sort /\ one_row_per_day two_days
  /\ latest_all insertion_sort two_days = latest_all backward_sort two_days.
Proof.
  split; [exact insertion_sort_lawful|]. split; [exact backward_sort_lawful|].
  split; [exact two_days_one_row_per_day|].
  exact (proj1 (snapshot_independent_of_sort insertion_sort backward_sort
                  two_days insertion_sort_lawful backward_sort_lawful
                  two_days_one_row_per_day)).
Defined.

(** ** Where a snapshot value comes from *)

Lemma last_notna_source (m : Metric) (g : DataFrame) (x : Q) :
  last_notna (map m g) = Some x ->
  exists gb r ga,
    g = gb ++ r :: ga /\ m r = Some x /\ forall r', In r' ga -> m r' = None.
Proof.
  intros Hlast. apply last_notna_Some in Hlast.
  destruct Hlast as (before & after & Hsplit & Hnone).
  apply map_eq_app in Hsplit. destruct Hsplit as (gb & g2 & -> & _ & Hg2).
  apply map_eq_cons in Hg2. destruct Hg2 as (r & ga & -> & Hr & Hafter).
  exists gb, r, ga. split; [reflexivity|]. split; [exact Hr|].
  intros r' Hr'. rewrite Forall_forall in Hnone. apply Hnone.
  rewrite <- Hafter. now apply in_map.
Qed.

(** X12.  A value the snapshot shows for one of the four metrics is the
    value of a row of that location in the data set, and no row of that
    location with a later date has the metric. *)
Theorem snapshot_value_is_most_recent (K : SortKind) (df : DataFrame)
    (m : Metric) (row : Row) (x : Q) :
  lawful K ->
  In m [ total_cases; total_deaths; total_deaths_per_million;
         people_fully_vaccinated_per_hundred ] ->
  In row (latest_all K df) ->
  m row = Some x ->
  exists r,
    In r df /\ location r = location row /\ m r = Some x
    /\ forall r', In r' df -> location r' = location row ->
                  (date r < date r')%Z -> m r' = None.
Proof.
  intros HK Hm Hrow Hx.
  unfold latest_all in Hrow. apply in_flat_map in Hrow.
  destruct Hrow as (name & _ & Hrow). unfold last_of_group in Hrow.
  destruct (get_group_sorted K HK df name) as (Hperm & Hsorted).
  destruct (get_group name (sort_values_date K df)) as [|first rest] eqn:Hg;
    [contradiction|].
  destruct Hrow as [<-|[]].
  assert (Hlast : last_notna (map m (first :: rest)) = Some x).
  { destruct Hm as [<-|[<-|[<-|[<-|[]]]]]; exact Hx. }
  destruct (last_notna_source m (first :: rest) x Hlast)
    as (gb & r & ga & Heq & Hr & Hnone).
  rewrite Heq in Hperm, Hsorted.
  assert (Hin : forall r', In r' df /\ location r' = Some name
                           <-> In r' (gb ++ r :: ga)).
  { intros r'. rewrite <- get_group_In. split; apply Permutation_in;
      [exact Hperm|now apply Permutation_sym]. }
  exists r. cbn [location agg_last].
  destruct (proj2 (Hin r)) as (Hr_df & Hr_loc).
  { apply in_or_app. right. now left. }
  split; [exact Hr_df|]. split; [exact Hr_loc|]. split; [exact Hr|].
  intros r' Hr' Hloc' Hlater.
  assert (Hr'g : In r' (gb ++ r :: ga)) by (apply Hin; now split).
  apply StronglySorted_app_inv in Hsorted.
  destruct Hsorted as (_ & _ & Hcross).
  apply in_app_or in Hr'g. destruct Hr'g as [Hb|[->|Ha]].
  - specialize (Hcross r' r Hb (or_introl eq_refl)).
    unfold by_date in Hcross. lia.
  - lia.
  - now apply Hnone.
Qed.

Lemma snapshot_value_is_most_recent_witness :
  lawful insertion_sort
  /\ exists r,
       In r two_days /\ location r = Some "Atlantis"
       /\ total_deaths_per_million r = Some (5 # 1)
       /\ forall r', In r' two_days -> location r' = Some "Atlantis" ->
                     (date r < date r')%Z ->
                     total_deaths_per_million r' = None.
Proof.
  split; [exact insertion_sort_lawful|].
  refine (snapshot_value_is_most_recent insertion_sort two_days
            total_deaths_per_million
            {| location := Some "Atlantis"; date := day 2;
               total_cases := Some (12 # 1); total_deaths := None;
               total_deaths_per_million := Some (5 # 1);
               people_fully_vaccinated_per_hundred := Some (8735 # 100) |}
            (5 # 1) insertion_sort_lawful _ _ eq_refl).
  - right. right. now left.
  - now left.
Defined.

(** ** The preview *)

(** X13.  The preview, when the script shows it, is the first rows of the
    view, at most fifty: rows of the data set, of the selected country and
    dated within the range. *)
Theorem preview_rows (K : SortKind) (df : DataFrame) (c : string)
    (range : DateInput) (rows : DataFrame) :
  In (st_dataframe rows) (fst (dashboard K df c range)) ->
  exists s e,
    unpack_date_range range = Ok (s, e)
    /\ rows = firstn 50 (filtered_df df c s e)
    /\ (List.length rows <= 50)%nat
    /\ forall r, In r rows ->
                 In r df /\ location r = Some c
                 /\ (s <= dt_date (date r) <= e)%Z.
Proof.
  unfold dashboard.
  destruct (unpack_date_range range) as [[s e]|err]; [|contradiction].
  destruct (empty (filtered_df df c s e)).
  { intros [H|[]]. discriminate H. }
  destruct (iloc_last _) as [row|err]; [|contradiction].
  intros Hin. exists s, e. split; [reflexivity|].
  assert (Hrows : rows = firstn 50 (filtered_df df c s e)).
  { simpl in Hin.
    destruct Hin as [H|[H|[H|[H|[H|[H|[H|[H|[]]]]]]]]]; try discriminate H.
    now injection H as <-. }
  split; [exact Hrows|]. subst rows.
  split; [apply firstn_le_length|].
  intros r Hr. apply In_firstn in Hr. now apply filtered_df_In.
Qed.

Lemma preview_rows_witness :
  exists s e,
    unpack_date_range (one_date (epoch_ordinal + 1)%Z) = Ok (s, e)
    /\ [sample_row "India" 1 (Some (10 # 1)) (Some (1 # 1)) None]
       = firstn 50 (filtered_df mixed_days "India" s e)
    /\ (List.length [sample_row "India" 1 (Some (10 # 1)) (Some (1 # 1)) None]
        <= 50)%nat
    /\ forall r,
         In r [sample_row "India" 1 (Some (10 # 1)) (Some (1 # 1)) None] ->
         In r mixed_days /\ location r = Some "India"
         /\ (s <= dt_date (date r) <= e)%Z.
Proof.
  apply (preview_rows insertion_sort mixed_days "India"
           (one_date (epoch_ordinal + 1)%Z)).
  do 7 right. left. reflexivity.
Defined.
